(** * airplane-sim: a shallow embedding of [scripts/airplane-sim.py]

    The script keeps its simulation state in module globals, advances
    the airspeed by one Euler step per loop iteration and talks to the
    SparkBench API over a WebSocket.  The embedding follows the script
    function by function.

    Numbers.  Python's arithmetic on the values of this script is IEEE
    binary64 arithmetic (ints take part as constants and as angles read
    from a frame).  The physics is written once, over an interface
    [Number] of the operations the script uses, and read twice:

    - [Binary64]: Rocq's primitive floats, the arithmetic Python
      performs, used wherever a statement is about concrete runs or
      needs only comparisons;
    - [Exact]: the rationals, the arithmetic of the physical model
      (no rounding, no NaN), used for the laws of the model.

    State.  The module globals are a record that every function takes
    and gives back; a call either returns or raises, and the globals
    are kept in both cases.  The two threads of the script appear as the
    functions they run: the callbacks on one side, the body of the loop
    on the other.

    Outside.  [json.loads] is a parameter of the handler.  A frame sent
    is recorded as the object given to [json.dumps].  The socket raises
    according to a schedule.  Console output and [time.sleep] leave no
    trace, except that the status line can raise. *)

From Stdlib Require Import ZArith QArith Qabs Qround Qminmax Floats Bool List String Ascii Lia Lqa.
Import ListNotations.

Set Implicit Arguments.
Set Warnings "-register-all,-inexact-float".

(** The exceptions that can arise in the modelled code. *)
Inductive exn : Type :=
| JSONDecodeError | AttributeError | TypeError | KeyError | ValueError
| OverflowError | ZeroDivisionError | RecursionError | WebSocketException.

(** ** Numbers *)

(** The operations of Python numbers that the script uses.  [num_lt] is
    Python's [<]; [num_round] is the one-argument [round], which returns
    an int and raises on a NaN or an infinity; [num_int_div] is [/] on
    two ints, which raises when the quotient is beyond the floats. *)
Class Number (T : Type) : Type := {
  num_of_int : Z -> T;
  num_add : T -> T -> T;
  num_sub : T -> T -> T;
  num_mul : T -> T -> T;
  num_div : T -> T -> T;
  num_abs : T -> T;
  num_lt : T -> T -> bool;
  num_round : T -> exn + Z;
  num_int_div : Z -> Z -> exn + T
}.

Declare Scope py_scope.
Delimit Scope py_scope with py.
Infix "+" := num_add : py_scope.
Infix "-" := num_sub : py_scope.
Infix "*" := num_mul : py_scope.
Infix "/" := num_div : py_scope.
Infix "<?" := num_lt : py_scope.

(** Round half to even on a rational, as Python's [round] does. *)
Definition Qround_half_even (x : Q) : Z :=
  let f := Qfloor x in
  match Qcompare (x - inject_Z f) (1 # 2) with
  | Lt => f
  | Gt => (f + 1)%Z
  | Eq => if Z.even f then f else (f + 1)%Z
  end.

Module Exact.

Definition Qlt_bool (x y : Q) : bool := negb (Qle_bool y x).

Definition Qint_div (n d : Z) : exn + Q :=
  if (d =? 0)%Z then inl ZeroDivisionError
  else inr (inject_Z n / inject_Z d).

#[global] Instance number : Number Q := {|
  num_of_int := inject_Z;
  num_add := Qplus;
  num_sub := Qminus;
  num_mul := Qmult;
  num_div := Qdiv;
  num_abs := Qabs;
  num_lt := Qlt_bool;
  num_round := fun x => inr (Qround_half_even x);
  num_int_div := Qint_div
|}.

End Exact.

Module Binary64.

(** The nearest binary64 value of an int, infinite when the int is out
    of range. *)
Definition float_of_Z (z : Z) : float :=
  SF2Prim (binary_normalize prec emax z 0 false).

(** The rational a finite float stands for. *)
Definition to_Q (x : float) : option Q :=
  match Prim2SF x with
  | S754_zero _ => Some 0%Q
  | S754_finite s m e =>
      let v := (inject_Z (Z.pos m) * Qpower 2 e)%Q in
      Some (if s then Qopp v else v)
  | S754_infinity _ | S754_nan => None
  end.

Definition float_round (x : float) : exn + Z :=
  match to_Q x with
  | Some q => inr (Qround_half_even q)
  | None => inl (if PrimFloat.eqb x x then OverflowError else ValueError)
  end.

(** The quotient of two ints, rounded once.  The numerator is scaled
    so that the integer quotient has more than 64 bits, and the
    remainder leaves a sticky bit below it. *)
Definition float_int_div (n d : Z) : exn + float :=
  if (d =? 0)%Z then inl ZeroDivisionError
  else
    let k := (Z.log2 (Z.abs d) + 65)%Z in
    let a := (Z.abs n * 2 ^ k)%Z in
    let b := Z.abs d in
    let m := (2 * (a / b) + (if (a mod b =? 0)%Z then 0 else 1))%Z in
    let signed := if xorb (n <? 0)%Z (d <? 0)%Z then (- m)%Z else m in
    let x := SF2Prim (binary_normalize prec emax signed (- (k + 1)) false) in
    match Prim2SF x with
    | S754_infinity _ => inl OverflowError
    | _ => inr x
    end.

#[global] Instance number : Number float := {|
  num_of_int := float_of_Z;
  num_add := PrimFloat.add;
  num_sub := PrimFloat.sub;
  num_mul := PrimFloat.mul;
  num_div := PrimFloat.div;
  num_abs := PrimFloat.abs;
  num_lt := PrimFloat.ltb;
  num_round := float_round;
  num_int_div := float_int_div
|}.

End Binary64.

(** ** The physics *)

Section Physics.

Context {T : Type} {num : Number T}.
Local Open Scope py_scope.

(** An int literal of the script, and a decimal literal
    [m * 10^-k]: the quotient of two ints is rounded once, as the
    literal is. *)
Definition int (z : Z) : T := num_of_int z.
Definition dec (m : Z) (k : nat) : T := int m / int (10 ^ Z.of_nat k).

(** Aircraft parameters. *)
Definition MASS : Z := 900.
Definition CD_A : T := dec 12 1.
Definition MAX_THRUST : Z := 2500.
Definition IDLE_THRUST : Z := 50.
Definition RHO : T := dec 1225 3.
Definition STATIC_PRESSURE : Z := 101325.
Definition TEMPERATURE : Z := 15.
Definition altitude_ft : Z := 3000.
Definition dt : T := dec 5 2.

Definition knots (ms : T) : T := ms * dec 194384 5.

(** Python's two-argument [min] and [max]: the first argument is kept
    unless the second is strictly better. *)
Definition pymin (a b : T) : T := if b <? a then b else a.
Definition pymax (a b : T) : T := if a <? b then b else a.

Definition compute_dynamic_pressure (v : T) : T :=
  dec 5 1 * RHO * v * v.

Definition compute_thrust (servo_deg : T) : T :=
  let frac := pymax (int 0) (pymin servo_deg (int 180)) / dec 1800 1 in
  int IDLE_THRUST + frac * int (MAX_THRUST - IDLE_THRUST).

Definition compute_drag (v : T) : T :=
  dec 5 1 * RHO * v * num_abs v * CD_A.

(** Two subexpressions, named for the statements below: the clamp
    inside [compute_thrust], and the value the Euler update of
    [physics_step] assigns to [airspeed_ms] before the test against
    zero. *)
Definition clamp_servo (servo_deg : T) : T :=
  pymax (int 0) (pymin servo_deg (int 180)).

Definition euler (v servo_deg : T) : T :=
  v + (compute_thrust servo_deg - compute_drag v) / int MASS * dt.

End Physics.

(** ** Python objects and the module state *)

Section Objects.

Context {T : Type}.

(** The objects [json.loads] builds.  A dict is kept as the list of its
    items in iteration order; a dict has each key once. *)
Inductive value : Type :=
| VNone
| VBool (b : bool)
| VInt (n : Z)
| VFloat (x : T)
| VStr (s : string)
| VList (items : list value)
| VDict (items : list (string * value)).

Fixpoint lookup (k : string) (items : list (string * value)) : option value :=
  match items with
  | [] => None
  | (k', v) :: rest => if String.eqb k' k then Some v else lookup k rest
  end.

(** [d.get(k, default)]; the one-argument [d.get(k)] has default [None]. *)
Definition dict_get (d : list (string * value)) (k : string) (default : value) : value :=
  match lookup k d with
  | Some v => v
  | None => default
  end.

(** [v == s] for a string literal [s]. *)
Definition eq_str (v : value) (s : string) : bool :=
  match v with
  | VStr s' => String.eqb s' s
  | _ => false
  end.

(** The module globals that the callbacks and the loop share. *)
Record Globals : Type := {
  airspeed_ms : T;
  throttle_angle : value;
  running : bool;
  ws_connected : bool;
  last_serial_lines : value
}.

Definition set_airspeed_ms (v : T) (g : Globals) : Globals :=
  {| airspeed_ms := v; throttle_angle := throttle_angle g;
     running := running g; ws_connected := ws_connected g;
     last_serial_lines := last_serial_lines g |}.

Definition set_throttle_angle (a : value) (g : Globals) : Globals :=
  {| airspeed_ms := airspeed_ms g; throttle_angle := a;
     running := running g; ws_connected := ws_connected g;
     last_serial_lines := last_serial_lines g |}.

Definition set_running (b : bool) (g : Globals) : Globals :=
  {| airspeed_ms := airspeed_ms g; throttle_angle := throttle_angle g;
     running := b; ws_connected := ws_connected g;
     last_serial_lines := last_serial_lines g |}.

Definition set_ws_connected (b : bool) (g : Globals) : Globals :=
  {| airspeed_ms := airspeed_ms g; throttle_angle := throttle_angle g;
     running := running g; ws_connected := b;
     last_serial_lines := last_serial_lines g |}.

Definition set_last_serial_lines (l : value) (g : Globals) : Globals :=
  {| airspeed_ms := airspeed_ms g; throttle_angle := throttle_angle g;
     running := running g; ws_connected := ws_connected g;
     last_serial_lines := l |}.

(** How a call ends: it returns, or an exception leaves it; either way
    the globals are as the call left them. *)
Inductive outcome : Type :=
| Returned (g : Globals)
| Raised (e : exn) (g : Globals).

Definition globals_of (o : outcome) : Globals :=
  match o with
  | Returned g => g
  | Raised _ g => g
  end.

Definition returned (o : outcome) : bool :=
  match o with
  | Returned _ => true
  | Raised _ _ => false
  end.

End Objects.

Arguments value : clear implicits.
Arguments Globals : clear implicits.
Arguments outcome : clear implicits.

(** ** One physics step *)

Section Step.

Context {T : Type} {num : Number T}.
Local Open Scope py_scope.

(** The number an object stands for in a comparison with an int or in
    arithmetic; [None] where Python raises [TypeError]. *)
Definition as_number (v : value T) : option T :=
  match v with
  | VBool b => Some (int (if b then 1 else 0))
  | VInt n => Some (int n)
  | VFloat x => Some x
  | VNone | VStr _ | VList _ | VDict _ => None
  end.

Definition physics_step (g : Globals T) : outcome T :=
  match as_number (throttle_angle g) with
  | None => Raised TypeError g
  | Some servo_deg =>
      let thrust := compute_thrust servo_deg in
      let drag := compute_drag (airspeed_ms g) in
      let accel := (thrust - drag) / int MASS in
      let v := airspeed_ms g + accel * dt in
      Returned (set_airspeed_ms (if v <? int 0 then int 0 else v) g)
  end.

End Step.

(** ** The WebSocket callbacks *)

Section Callbacks.

Context {T : Type}.

(** [json.loads]: the object a text frame decodes to, or the exception
    it raises: [JSONDecodeError] on a text that is not JSON. *)
Variable json_loads : string -> exn + value T.

(** The listing of the parts of a [ready] frame writes to the console
    only; what matters here is whether it raises.  One line of it
    formats [p['id']] with [:12s] and then reads [p['type']]. *)
Definition print_part (p : value T) : option exn :=
  match p with
  | VDict d =>
      match lookup "id" d with
      | None => Some KeyError
      | Some (VStr _) =>
          match lookup "type" d with
          | None => Some KeyError
          | Some _ => None
          end
      | Some (VBool _ | VInt _ | VFloat _) => Some ValueError
      | Some (VNone | VList _ | VDict _) => Some TypeError
      end
  | _ => Some TypeError
  end.

Fixpoint print_parts (ps : list (value T)) : option exn :=
  match ps with
  | [] => None
  | p :: rest =>
      match print_part p with
      | Some e => Some e
      | None => print_parts rest
      end
  end.

(** [for p in parts: print(...)]: a dict or a string iterates over
    strings, which cannot be indexed by ['id']. *)
Definition list_parts (parts : value T) : option exn :=
  match parts with
  | VList ps => print_parts ps
  | VDict [] | VStr EmptyString => None
  | VDict (_ :: _) | VStr (String _ _) => Some TypeError
  | VNone | VBool _ | VInt _ | VFloat _ => Some TypeError
  end.

(** [for pid, info in parts.items(): ...]: every servo part writes its
    angle, so the last one in iteration order stays; an [info] that is
    not a dict has no [get]. *)
Fixpoint scan_parts (parts : list (string * value T)) (g : Globals T) : outcome T :=
  match parts with
  | [] => Returned g
  | (pid, info) :: rest =>
      match info with
      | VDict attrs =>
          if eq_str (dict_get attrs "type" VNone) "wokwi-servo"
          then scan_parts rest (set_throttle_angle (dict_get attrs "angle" (VInt 0)) g)
          else scan_parts rest g
      | _ => Raised AttributeError g
      end
  end.

Definition on_message (g : Globals T) (message : string) : outcome T :=
  match json_loads message with
  | inl JSONDecodeError => Returned g
  | inl e => Raised e g
  | inr (VDict msg) =>
      if eq_str (dict_get msg "type" VNone) "ready" then
        match list_parts (dict_get msg "parts" (VList [])) with
        | Some e => Raised e g
        | None => Returned g
        end
      else if eq_str (dict_get msg "type" VNone) "state" then
        match dict_get msg "parts" (VDict []) with
        | VDict parts =>
            match scan_parts parts g with
            | Returned g' =>
                Returned (set_last_serial_lines (dict_get msg "serial" (VList [])) g')
            | Raised e g' => Raised e g'
            end
        | _ => Raised AttributeError g
        end
      else if eq_str (dict_get msg "type" VNone) "serial" then
        match dict_get msg "data" (VStr EmptyString) with
        | VStr line => Returned g
        | _ => Raised AttributeError g
        end
      else if eq_str (dict_get msg "type" VNone) "error" then
        Returned g
      else Returned g
  | inr _ => Raised AttributeError g
  end.

Definition on_error (g : Globals T) : Globals T := g.

Definition on_close (g : Globals T) : Globals T := set_ws_connected false g.

Definition on_open (g : Globals T) : Globals T := set_ws_connected true g.

End Callbacks.

(** ** The socket and the simulation loop *)

Section Loop.

Context {T : Type} {num : Number T}.
Local Open Scope string_scope.
Local Open Scope list_scope.
Local Open Scope py_scope.

(** The socket as the loop sees it.  [ws.send(json.dumps(obj))] is
    recorded by the object it serialises: [attempted] lists every call
    of [send], [delivered] those that went out, both oldest first.
    [faults] says of the coming calls whether they raise (as a closed
    connection makes them); beyond its end, calls succeed. *)
Record WebSocketApp : Type := {
  attempted : list (value T);
  delivered : list (value T);
  faults : list bool
}.

(** Statements of a [try] block: they act on the socket and either
    yield a result or raise. *)
Definition attempt (A : Type) : Type := WebSocketApp -> WebSocketApp * (exn + A).

Definition bind {A B : Type} (c : attempt A) (k : A -> attempt B) : attempt B :=
  fun ws =>
    match c ws with
    | (ws', inr a) => k a ws'
    | (ws', inl e) => (ws', inl e)
    end.

Notation "x <- c ;; k" := (bind c (fun x => k))
  (at level 61, c at next level, right associativity).
Notation "c ;; k" := (bind c (fun _ => k))
  (at level 61, right associativity).

Definition ws_send (payload : value T) : attempt unit :=
  fun ws =>
    match faults ws with
    | true :: later =>
        ({| attempted := attempted ws ++ [payload];
            delivered := delivered ws;
            faults := later |}, inl WebSocketException)
    | false :: later =>
        ({| attempted := attempted ws ++ [payload];
            delivered := delivered ws ++ [payload];
            faults := later |}, inr tt)
    | [] =>
        ({| attempted := attempted ws ++ [payload];
            delivered := delivered ws ++ [payload];
            faults := [] |}, inr tt)
    end.

(** [round(x)] inside the block. *)
Definition py_round (x : T) : attempt Z := fun ws => (ws, num_round x).

(** [try: c except Exception: pass]. *)
Definition try_except_pass (c : attempt unit) (ws : WebSocketApp) : WebSocketApp :=
  fst (c ws).

(** The locals of [sim_loop] next to the globals. *)
Record Loop : Type := {
  globals : Globals T;
  ws : WebSocketApp;
  tick : Z
}.

Inductive loop_outcome : Type :=
| Continues (l : Loop)
| Crashes (e : exn) (l : Loop).

Definition loop_of (o : loop_outcome) : Loop :=
  match o with
  | Continues l => l
  | Crashes _ l => l
  end.

(** The status line printed every 20 ticks goes to the console; what
    is kept of it is whether computing it raises.  [knots],
    [compute_thrust] and [compute_drag] come first, then
    [round(throttle_angle / 180 * 100)]. *)
Definition status_line (g : Globals T) : option exn :=
  let of_int_angle (n : Z) : option exn :=
    match num_int_div n 180 with
    | inl e => Some e
    | inr q =>
        match num_round (q * int 100) with
        | inl e => Some e
        | inr thr_pct => None
        end
    end in
  match throttle_angle g with
  | VBool b => of_int_angle (if b then 1 else 0)%Z
  | VInt n => of_int_angle n
  | VFloat x =>
      match num_round (x / int 180 * int 100) with
      | inl e => Some e
      | inr thr_pct => None
      end
  | VNone | VStr _ | VList _ | VDict _ => Some TypeError
  end.

(** One iteration of [while running:], after its [time.sleep(dt)]. *)
Definition loop_body (l : Loop) : loop_outcome :=
  if negb (ws_connected (globals l)) then Continues l
  else
    match physics_step (globals l) with
    | Raised e g => Crashes e {| globals := g; ws := ws l; tick := tick l |}
    | Returned g =>
        let qc := compute_dynamic_pressure (airspeed_ms g) in
        let pitot_pressure := int STATIC_PRESSURE + qc in
        let ws' :=
          try_except_pass
            (rounded <- py_round pitot_pressure ;;
             ws_send (VDict [("cmd", VStr "set-control");
                             ("partId", VStr "pitot");
                             ("control", VStr "pressure");
                             ("value", VInt rounded)]) ;;
             ws_send (VDict [("cmd", VStr "set-control");
                             ("partId", VStr "static");
                             ("control", VStr "pressure");
                             ("value", VInt STATIC_PRESSURE)]) ;;
             ws_send (VDict [("cmd", VStr "get-state")]))
            (ws l) in
        let l' := {| globals := g; ws := ws'; tick := (tick l + 1)%Z |} in
        if (tick l' mod 20 =? 0)%Z then
          match status_line g with
          | Some e => Crashes e l'
          | None => Continues l'
          end
        else Continues l'
    end.

(** [n] iterations of the loop, as long as [running] holds and no
    exception leaves the body. *)
Fixpoint sim_loop (n : nat) (l : Loop) : loop_outcome :=
  match n with
  | O => Continues l
  | S n' =>
      if running (globals l) then
        match loop_body l with
        | Continues l' => sim_loop n' l'
        | Crashes e l' => Crashes e l'
        end
      else Continues l
  end.

End Loop.

Arguments WebSocketApp : clear implicits.
Arguments Loop : clear implicits.
Arguments loop_outcome : clear implicits.

(** ** Start-up *)

Section Main.

Local Open Scope string_scope.
Local Open Scope list_scope.

Definition default_url : string := "ws://localhost:8765".

(** [for i, arg in enumerate(sys.argv[1:], 1)]: [args] is what is left
    of [sys.argv[1:]] and [i] the index of its head in [sys.argv].  The
    guard [i < len(sys.argv) - 1] keeps [sys.argv[i + 1]] in range. *)
Fixpoint url_loop (argv : list string) (i : nat) (args : list string) (url : string)
  : string :=
  match args with
  | [] => url
  | arg :: rest =>
      url_loop argv (S i) rest
        (if String.eqb arg "--url" && (i <? List.length argv - 1)%nat
         then nth (i + 1) argv EmptyString
         else url)
  end.

Definition parse_url (argv : list string) : string :=
  url_loop argv 1 (tl argv) default_url.

(** [for _ in range(50): if ws_connected: break; time.sleep(0.1)].  The
    flag is written by the socket thread; [flag_at k] is what the k-th
    read of it by [main] sees.  The result is the number of reads
    made. *)
Fixpoint wait_for_connection (polls : nat) (flag_at : nat -> bool) (reads : nat) : nat :=
  match polls with
  | O => reads
  | S polls' =>
      if flag_at reads then S reads
      else wait_for_connection polls' flag_at (S reads)
  end.

(** How [main] goes on after the wait: [sys.exit(1)], or [sim_loop] on
    the socket opened at [url]. *)
Inductive startup : Type :=
| Exit (code : Z)
| Simulate (url : string).

Definition main (argv : list string) (flag_at : nat -> bool) : startup :=
  let url := parse_url argv in
  let reads := wait_for_connection 50 flag_at 0 in
  if negb (flag_at reads) then Exit 1 else Simulate url.

(** The option scan without indices: an argument is looked at together
    with the one after it. *)
Fixpoint url_scan (args : list string) (url : string) : string :=
  match args with
  | arg :: (next :: _) as rest =>
      url_scan rest (if String.eqb arg "--url" then next else url)
  | _ => url
  end.

End Main.

(** ** Vocabulary of the statements *)

Section Vocabulary.

Context {T : Type} {num : Number T}.
Local Open Scope string_scope.
Local Open Scope list_scope.
Local Open Scope py_scope.

Definition is_dict (v : value T) : bool :=
  match v with
  | VDict _ => true
  | _ => false
  end.

(** The test of [on_message] on a part, for a part that is a dict. *)
Definition is_servo (v : value T) : bool :=
  match v with
  | VDict attrs => eq_str (dict_get attrs "type" VNone) "wokwi-servo"
  | _ => false
  end.

(** The three dict literals of [sim_loop], in the order of the calls. *)
Definition pitot_frame (pascals : Z) : value T :=
  VDict [("cmd", VStr "set-control"); ("partId", VStr "pitot");
         ("control", VStr "pressure"); ("value", VInt pascals)].

Definition static_frame : value T :=
  VDict [("cmd", VStr "set-control"); ("partId", VStr "static");
         ("control", VStr "pressure"); ("value", VInt STATIC_PRESSURE)].

Definition poll_frame : value T :=
  VDict [("cmd", VStr "get-state")].

(** The three calls of the [try] block of [sim_loop], from a given
    socket and with the pitot value already rounded. *)
Definition send_block (p : Z) (s : WebSocketApp T) : WebSocketApp T :=
  fst (bind (ws_send (pitot_frame p))
            (fun _ => bind (ws_send static_frame)
                           (fun _ => ws_send poll_frame)) s).

(** The end of an iteration that has reached [tick += 1]: the status
    line is due on every 20th tick, and the iteration goes on to the next
    unless computing the line raises. *)
Definition after_status (l' : Loop T) : loop_outcome T :=
  if (tick l' mod 20 =? 0)%Z then
    match status_line (globals l') with
    | Some e => Crashes e l'
    | None => Continues l'
    end
  else Continues l'.

Definition continues (o : loop_outcome T) : bool :=
  match o with
  | Continues _ => true
  | Crashes _ _ => false
  end.

(** The pitot pressure [sim_loop] derives from the airspeed. *)
Definition pitot_pressure_of (g : Globals T) : T :=
  int STATIC_PRESSURE + compute_dynamic_pressure (airspeed_ms g).

(** [d[k]] for an object that is a dict. *)
Definition item (v : value T) (k : string) : option (value T) :=
  match v with
  | VDict d => lookup k d
  | _ => None
  end.

End Vocabulary.

(** ** States of the examples *)

Module Samples.

Section Generic.

Context {T : Type} {num : Number T}.
Local Open Scope string_scope.
Local Open Scope list_scope.

(** The globals as the module initialises them, with the connection
    open or not and a given throttle position. *)
Definition initial (connected : bool) (throttle : value T) : Globals T :=
  {| airspeed_ms := int 0;
     throttle_angle := throttle;
     running := true;
     ws_connected := connected;
     last_serial_lines := VList [] |}.

(** The same at a given airspeed. *)
Definition flying (v : T) (throttle : value T) : Globals T :=
  set_airspeed_ms v (initial true throttle).

(** A decoder given by a table of frame texts and the objects they
    decode to; every other text is malformed. *)
Definition loads_table (table : list (string * value T)) (message : string)
  : exn + value T :=
  match lookup message table with
  | Some obj => inr obj
  | None => inl JSONDecodeError
  end.

(** A [state] frame with one servo part, and one whose servo part
    has no angle. *)
Definition servo_snapshot (angle : value T) : value T :=
  VDict [("type", VStr "state");
         ("parts", VDict [("bmp1", VDict [("type", VStr "wokwi-bmp180")]);
                          ("servo1", VDict [("type", VStr "wokwi-servo");
                                            ("angle", angle)])]);
         ("serial", VList [])].

Definition servo_snapshot_no_angle : value T :=
  VDict [("type", VStr "state");
         ("parts", VDict [("servo1", VDict [("type", VStr "wokwi-servo")])]);
         ("serial", VList [])].

(** The texts of three frames: the snapshot with the servo at 270
    degrees, the snapshot without an angle, and one that is not
    JSON; and the decoder that knows the first two. *)
Definition quoted (s : string) : string :=
  String (ascii_of_nat 34) (s ++ String (ascii_of_nat 34) EmptyString).

Definition snapshot_270_text : string :=
  "{" ++ quoted "type" ++ ": " ++ quoted "state" ++ ", "
  ++ quoted "parts" ++ ": {"
  ++ quoted "bmp1" ++ ": {" ++ quoted "type" ++ ": " ++ quoted "wokwi-bmp180" ++ "}, "
  ++ quoted "servo1" ++ ": {" ++ quoted "type" ++ ": " ++ quoted "wokwi-servo"
  ++ ", " ++ quoted "angle" ++ ": 270}}, "
  ++ quoted "serial" ++ ": []}".

Definition snapshot_no_angle_text : string :=
  "{" ++ quoted "type" ++ ": " ++ quoted "state" ++ ", "
  ++ quoted "parts" ++ ": {"
  ++ quoted "servo1" ++ ": {" ++ quoted "type" ++ ": " ++ quoted "wokwi-servo" ++ "}}, "
  ++ quoted "serial" ++ ": []}".

Definition malformed_text : string := "{not json".

Definition sample_loads : string -> exn + value T :=
  loads_table [(snapshot_270_text, servo_snapshot (VInt 270));
               (snapshot_no_angle_text, servo_snapshot_no_angle)].

(** A socket that has sent nothing, with a given fault schedule, and
    the loop about to run its first iteration. *)
Definition fresh_socket (schedule : list bool) : WebSocketApp T :=
  {| attempted := []; delivered := []; faults := schedule |}.

Definition first_iteration (g : Globals T) (schedule : list bool) : Loop T :=
  {| globals := g; ws := fresh_socket schedule; tick := 0 |}.

End Generic.

End Samples.

(** ** Vocabulary of the further statements *)

Section MoreVocabulary.

Context {T : Type} {num : Number T}.
Local Open Scope string_scope.
Local Open Scope list_scope.

(** Two runs of the loop that differ in their sockets only, and two
    outcomes that do. *)
Definition same_simulation (l1 l2 : Loop T) : Prop :=
  globals l1 = globals l2 /\ tick l1 = tick l2.

Definition same_outcome (o1 o2 : loop_outcome T) : Prop :=
  match o1, o2 with
  | Continues l1, Continues l2 => same_simulation l1 l2
  | Crashes e1 l1, Crashes e2 l2 => e1 = e2 /\ same_simulation l1 l2
  | _, _ => False
  end.


(** The loop with another socket. *)
Definition with_socket (s : WebSocketApp T) (l : Loop T) : Loop T :=
  {| globals := globals l; ws := s; tick := tick l |}.

(** The loop with other globals. *)
Definition with_globals (g : Globals T) (l : Loop T) : Loop T :=
  {| globals := g; ws := ws l; tick := tick l |}.

End MoreVocabulary.

(** A float is [signed s] when it is a NaN, a zero, or has sign [s]
    ([true] for minus). *)
Definition signed (s : bool) (f : spec_float) : Prop :=
  match f with
  | S754_nan | S754_zero _ => True
  | S754_infinity s' | S754_finite s' _ _ => s' = s
  end.

(** ** More states of the examples *)

Module MoreSamples.

Section Generic.

Context {T : Type} {num : Number T}.
Local Open Scope string_scope.
Local Open Scope list_scope.

(** Three more frames: a snapshot whose servo angle is a string, one
    with a part that is not an object after the servo, and one without
    a servo.  Then a [ready] frame and a frame that is a JSON array. *)
Definition snapshot_word_text : string :=
  "{" ++ Samples.quoted "type" ++ ": " ++ Samples.quoted "state" ++ ", "
  ++ Samples.quoted "parts" ++ ": {"
  ++ Samples.quoted "servo1" ++ ": {" ++ Samples.quoted "type" ++ ": "
  ++ Samples.quoted "wokwi-servo" ++ ", " ++ Samples.quoted "angle" ++ ": "
  ++ Samples.quoted "full" ++ "}}}".

Definition snapshot_word : value T :=
  VDict [("type", VStr "state");
         ("parts", VDict [("servo1", VDict [("type", VStr "wokwi-servo");
                                            ("angle", VStr "full")])])].

Definition snapshot_broken_text : string :=
  "{" ++ Samples.quoted "type" ++ ": " ++ Samples.quoted "state" ++ ", "
  ++ Samples.quoted "parts" ++ ": {"
  ++ Samples.quoted "servo1" ++ ": {" ++ Samples.quoted "type" ++ ": "
  ++ Samples.quoted "wokwi-servo" ++ ", " ++ Samples.quoted "angle" ++ ": 45}, "
  ++ Samples.quoted "led1" ++ ": 3}, "
  ++ Samples.quoted "serial" ++ ": [" ++ Samples.quoted "AT:1" ++ "]}".

Definition snapshot_broken : value T :=
  VDict [("type", VStr "state");
         ("parts", VDict [("servo1", VDict [("type", VStr "wokwi-servo");
                                            ("angle", VInt 45)]);
                          ("led1", VInt 3)]);
         ("serial", VList [VStr "AT:1"])].

Definition snapshot_no_servo_text : string :=
  "{" ++ Samples.quoted "type" ++ ": " ++ Samples.quoted "state" ++ ", "
  ++ Samples.quoted "parts" ++ ": {"
  ++ Samples.quoted "bmp1" ++ ": {" ++ Samples.quoted "type" ++ ": "
  ++ Samples.quoted "wokwi-bmp180" ++ "}}, "
  ++ Samples.quoted "serial" ++ ": [" ++ Samples.quoted "AT:1" ++ "]}".

Definition snapshot_no_servo : value T :=
  VDict [("type", VStr "state");
         ("parts", VDict [("bmp1", VDict [("type", VStr "wokwi-bmp180")])]);
         ("serial", VList [VStr "AT:1"])].

Definition ready_text : string :=
  "{" ++ Samples.quoted "type" ++ ": " ++ Samples.quoted "ready" ++ ", "
  ++ Samples.quoted "project" ++ ": " ++ Samples.quoted "autothrottle" ++ ", "
  ++ Samples.quoted "parts" ++ ": [{" ++ Samples.quoted "id" ++ ": 7}]}".

Definition ready_frame : value T :=
  VDict [("type", VStr "ready"); ("project", VStr "autothrottle");
         ("parts", VList [VDict [("id", VInt 7)]])].

Definition more_loads : string -> exn + value T :=
  Samples.loads_table
    [(snapshot_word_text, snapshot_word);
     (snapshot_broken_text, snapshot_broken);
     (snapshot_no_servo_text, snapshot_no_servo);
     (ready_text, ready_frame);
     ("[1, 2]", VList [VInt 1; VInt 2])].

End Generic.

End MoreSamples.

(** * Properties *)

(** ** The step, for any arithmetic *)

Section StepFacts.

Context {T : Type} {num : Number T}.
Local Open Scope py_scope.

(** With a number as throttle position the step returns, writes the
    airspeed and nothing else. *)
Lemma physics_step_number (g : Globals T) (a : T) :
  as_number (throttle_angle g) = Some a ->
  physics_step g =
    Returned (set_airspeed_ms
                (if euler (airspeed_ms g) a <? int 0 then int 0
                 else euler (airspeed_ms g) a) g).
Proof.
  intros Ha. unfold physics_step. rewrite Ha. reflexivity.
Qed.

(** Without one it raises and leaves the globals alone. *)
Lemma physics_step_type_error (g : Globals T) :
  as_number (throttle_angle g) = None ->
  physics_step g = Raised TypeError g.
Proof.
  intros Ha. unfold physics_step. rewrite Ha. reflexivity.
Qed.

Lemma physics_step_keeps_throttle (g : Globals T) :
  throttle_angle (globals_of (physics_step g)) = throttle_angle g.
Proof.
  unfold physics_step. destruct (as_number (throttle_angle g)); reflexivity.
Qed.


(** Clamping twice is clamping once, as soon as [<] orders the two
    bounds as it should. *)
Lemma clamp_servo_idem (a : T) :
  (int 0 <? int 180) = true ->
  (int 180 <? int 180) = false ->
  (int 180 <? int 0) = false ->
  (int 0 <? int 0) = false ->
  clamp_servo (clamp_servo a) = clamp_servo a.
Proof.
  intros H1 H2 H3 H4. unfold clamp_servo, pymax, pymin.
  destruct (int 180 <? a) eqn:Ea.
  - rewrite H1, H2, H1. reflexivity.
  - destruct (int 0 <? a) eqn:Eb.
    + rewrite Ea, Eb. reflexivity.
    + rewrite H3, H4. reflexivity.
Qed.

End StepFacts.

(** ** Exact arithmetic *)

Module ExactFacts.

Local Open Scope Q_scope.

Lemma Qlt_bool_true (x y : Q) : Exact.Qlt_bool x y = true <-> x < y.
Proof.
  unfold Exact.Qlt_bool. rewrite negb_true_iff. split; intros H.
  - apply Qnot_le_lt. intros C. apply Qle_bool_iff in C. congruence.
  - destruct (Qle_bool y x) eqn:E; [|reflexivity].
    apply Qle_bool_iff in E. exfalso; lra.
Qed.

Lemma Qlt_bool_false (x y : Q) : Exact.Qlt_bool x y = false <-> y <= x.
Proof.
  unfold Exact.Qlt_bool. rewrite negb_false_iff. apply Qle_bool_iff.
Qed.

(** The literals of the script as rationals. *)
Ltac exact_ops :=
  change (@dec Q _ 1800 1) with (1800 # 10) in *;
  change (@dec Q _ 5 1) with (5 # 10) in *;
  change (@dt Q _) with (5 # 100) in *;
  change (@RHO Q _) with (1225 # 1000) in *;
  change (@CD_A Q _) with (12 # 10) in *;
  change (@int Q _ IDLE_THRUST) with 50 in *;
  change (@int Q _ (MAX_THRUST - IDLE_THRUST)) with 2450 in *;
  change (@int Q _ MASS) with 900 in *;
  change (@int Q _ STATIC_PRESSURE) with 101325 in *;
  change (@int Q _ 0) with 0 in *;
  change (@int Q _ 180) with 180 in *;
  cbn [num_add num_sub num_mul num_div num_abs num_lt Exact.number] in *.

Lemma clamp_servo_exact (a : Q) : clamp_servo a == Qmax 0 (Qmin a 180).
Proof.
  unfold clamp_servo, pymax, pymin. exact_ops.
  destruct (Exact.Qlt_bool 180 a) eqn:E1.
  - apply Qlt_bool_true in E1.
    replace (Exact.Qlt_bool 0 180) with true by reflexivity.
    rewrite (Q.min_r a 180) by lra. rewrite Q.max_r by lra. reflexivity.
  - apply Qlt_bool_false in E1. rewrite (Q.min_l a 180) by lra.
    destruct (Exact.Qlt_bool 0 a) eqn:E2.
    + apply Qlt_bool_true in E2. rewrite Q.max_r by lra. reflexivity.
    + apply Qlt_bool_false in E2. rewrite Q.max_l by lra. reflexivity.
Qed.

Lemma compute_thrust_exact (a : Q) :
  compute_thrust a == 50 + Qmax 0 (Qmin a 180) * (245 # 18).
Proof.
  unfold compute_thrust. cbv zeta. fold (clamp_servo a).
  exact_ops. rewrite clamp_servo_exact. field.
Qed.

Lemma compute_drag_exact (v : Q) :
  compute_drag v == (735 # 1000) * (v * Qabs v).
Proof. unfold compute_drag. exact_ops. field. Qed.

Lemma compute_dynamic_pressure_exact (v : Q) :
  compute_dynamic_pressure v == (6125 # 10000) * (v * v).
Proof. unfold compute_dynamic_pressure. exact_ops. field. Qed.



(** [lra] with the minimum and the maximum of the clamp named. *)
Ltac minmax_lra a :=
  let Hm := fresh "Hm" in
  let HM := fresh "HM" in
  pose proof (Q.min_spec a 180) as Hm;
  pose proof (Q.max_spec 0 (Qmin a 180)) as HM;
  revert Hm HM;
  generalize (Qmax 0 (Qmin a 180)); generalize (Qmin a 180);
  intros ? ? [[? ?]|[? ?]] [[? ?]|[? ?]]; lra.

Lemma compute_thrust_idle (a : Q) : a <= 0 -> compute_thrust a == 50.
Proof.
  intros Ha. rewrite compute_thrust_exact. minmax_lra a.
Qed.

Lemma compute_thrust_full (a : Q) : 180 <= a -> compute_thrust a == 2500.
Proof.
  intros Ha. rewrite compute_thrust_exact. minmax_lra a.
Qed.

Lemma compute_thrust_linear (a : Q) :
  0 <= a <= 180 -> compute_thrust a == 50 + a * (245 # 18).
Proof.
  intros Ha. rewrite compute_thrust_exact. minmax_lra a.
Qed.


End ExactFacts.

(** ** Binary64 arithmetic *)

Module Binary64Facts.

Ltac float_ops :=
  cbn [num_add num_sub num_mul num_div num_abs num_lt Binary64.number] in *.

(** The literals of the script as floats. *)
Lemma literals :
  @int float _ 0 = 0%float /\ @int float _ 180 = 180%float /\
  @dec float _ 1800 1 = 180%float /\ @dec float _ 5 1 = 0.5%float /\
  @RHO float _ = 1.225%float /\ @CD_A float _ = 1.2%float /\
  @dt float _ = 0.05%float /\ @dec float _ 194384 5 = 1.94384%float.
Proof. repeat split; reflexivity. Qed.

(** Comparisons of a float with the two bounds of the clamp, read off
    the specification of [<]. *)
Ltac by_float_spec :=
  rewrite ?FloatAxioms.eqb_spec, ?FloatAxioms.ltb_spec, ?FloatAxioms.leb_spec;
  unfold SFeqb, SFltb, SFleb;
  let c0 := fresh "c" in
  let c1 := fresh "c" in
  set (c0 := Prim2SF 0); vm_compute in c0; subst c0;
  try (set (c1 := Prim2SF 180); vm_compute in c1; subst c1);
  match goal with
  | |- context [Prim2SF ?p] =>
      destruct (Prim2SF p) as [s | s | | s m e]; simpl; try discriminate;
      destruct s; simpl; try discriminate; auto
  end.

Lemma below_zero (p : float) :
  PrimFloat.ltb p 0 = true ->
  PrimFloat.ltb 180 p = false /\ PrimFloat.ltb 0 p = false.
Proof. by_float_spec. Qed.

Lemma above_180 (p : float) :
  PrimFloat.ltb 180 p = true -> PrimFloat.ltb 0 p = true.
Proof. by_float_spec. Qed.

Lemma above_zero (p : float) :
  PrimFloat.ltb 0 p = true -> PrimFloat.ltb p 0 = false.
Proof. by_float_spec. Qed.


Lemma compute_thrust_below (p : float) :
  PrimFloat.ltb p 0 = true -> compute_thrust p = compute_thrust (int 0).
Proof.
  intros H. destruct (below_zero H) as [H1 H2].
  unfold compute_thrust, pymax, pymin. float_ops.
  destruct literals as (-> & -> & _).
  rewrite H1, H2. reflexivity.
Qed.

Lemma compute_thrust_above (p : float) :
  PrimFloat.ltb 180 p = true -> compute_thrust p = compute_thrust (int 180).
Proof.
  intros H. unfold compute_thrust, pymax, pymin. float_ops.
  destruct literals as (-> & -> & _).
  rewrite H. reflexivity.
Qed.

End Binary64Facts.

(** ** The message handler *)

Section MessageFacts.

Context {T : Type}.
Variable json_loads : string -> exn + value T.
Local Open Scope string_scope.
Local Open Scope list_scope.

(** Scanning the parts writes the throttle position and nothing
    else. *)
Lemma scan_parts_throttle_only (parts : list (string * value T)) (g : Globals T) :
  airspeed_ms (globals_of (scan_parts parts g)) = airspeed_ms g /\
  ws_connected (globals_of (scan_parts parts g)) = ws_connected g /\
  running (globals_of (scan_parts parts g)) = running g /\
  last_serial_lines (globals_of (scan_parts parts g)) = last_serial_lines g.
Proof.
  revert g. induction parts as [|[pid info] rest IH]; intros g; [repeat split|].
  cbn [scan_parts]. destruct info as [ | | | | | |attrs]; try (repeat split; reflexivity).
  destruct (eq_str _ _); [|apply IH].
  destruct (IH (set_throttle_angle (dict_get attrs "angle" (VInt 0)) g))
    as (H1 & H2 & H3 & H4).
  repeat split; assumption.
Qed.

(** Parts none of which is a servo leave the throttle position alone,
    whether the scan returns or raises. *)
Lemma scan_parts_no_servo (parts : list (string * value T)) (g : Globals T) :
  forallb (fun p => negb (is_servo (snd p))) parts = true ->
  throttle_angle (globals_of (scan_parts parts g)) = throttle_angle g.
Proof.
  revert g. induction parts as [|[pid info] rest IH]; intros g H; [reflexivity|].
  cbn [forallb snd] in H. apply andb_true_iff in H. destruct H as [H1 H2].
  cbn [scan_parts]. destruct info; try reflexivity.
  cbn [is_servo] in H1. apply negb_true_iff in H1. rewrite H1. apply IH. exact H2.
Qed.

(** A prefix of dicts is scanned to its end. *)
Lemma scan_parts_app (before after : list (string * value T)) (g : Globals T) :
  forallb (fun p => is_dict (snd p)) before = true ->
  exists g', scan_parts before g = Returned g' /\
             scan_parts (before ++ after) g = scan_parts after g'.
Proof.
  revert g. induction before as [|[pid info] rest IH]; intros g H.
  - exists g. split; reflexivity.
  - cbn [forallb snd] in H. apply andb_true_iff in H. destruct H as [H1 H2].
    destruct info; try discriminate.
    cbn [scan_parts app]. destruct (eq_str _ _); apply IH; exact H2.
Qed.

Lemma scan_parts_returns (parts : list (string * value T)) (g : Globals T) :
  forallb (fun p => is_dict (snd p)) parts = true ->
  returned (scan_parts parts g) = true.
Proof.
  intros H. destruct (@scan_parts_app parts [] g H) as (g' & Hg & _).
  rewrite Hg. reflexivity.
Qed.

(** The last servo part decides. *)
Lemma scan_parts_last_servo (before after : list (string * value T))
      (pid : string) (attrs : list (string * value T)) (g : Globals T) :
  forallb (fun p => is_dict (snd p)) before = true ->
  is_servo (VDict attrs) = true ->
  forallb (fun p => negb (is_servo (snd p))) after = true ->
  throttle_angle (globals_of (scan_parts (before ++ (pid, VDict attrs) :: after) g))
  = dict_get attrs "angle" (VInt 0).
Proof.
  intros Hb Hs Ha.
  destruct (@scan_parts_app before ((pid, VDict attrs) :: after) g Hb) as (g' & _ & Hg).
  rewrite Hg. cbn [scan_parts]. cbn [is_servo] in Hs. rewrite Hs.
  rewrite scan_parts_no_servo by exact Ha. reflexivity.
Qed.

Lemma on_message_state (g : Globals T) (message : string)
      (msg parts : list (string * value T)) :
  json_loads message = inr (VDict msg) ->
  dict_get msg "type" VNone = VStr "state" ->
  dict_get msg "parts" (VDict []) = VDict parts ->
  on_message json_loads g message =
    match scan_parts parts g with
    | Returned g' =>
        Returned (set_last_serial_lines (dict_get msg "serial" (VList [])) g')
    | Raised e g' => Raised e g'
    end.
Proof.
  intros Hl Ht Hp. unfold on_message. rewrite Hl, Ht, Hp. reflexivity.
Qed.

Lemma on_message_state_globals (g : Globals T) (message : string)
      (msg parts : list (string * value T)) :
  json_loads message = inr (VDict msg) ->
  dict_get msg "type" VNone = VStr "state" ->
  dict_get msg "parts" (VDict []) = VDict parts ->
  throttle_angle (globals_of (on_message json_loads g message)) =
    throttle_angle (globals_of (scan_parts parts g)) /\
  airspeed_ms (globals_of (on_message json_loads g message)) = airspeed_ms g /\
  returned (on_message json_loads g message) = returned (scan_parts parts g).
Proof.
  intros Hl Ht Hp. rewrite (@on_message_state g _ _ _ Hl Ht Hp).
  destruct (scan_parts_throttle_only parts g) as (Hv & _).
  destruct (scan_parts parts g); repeat split; assumption.
Qed.


End MessageFacts.

(** ** The loop *)

Section LoopFacts.

Context {T : Type} {num : Number T}.
Local Open Scope string_scope.
Local Open Scope list_scope.

Lemma loop_body_disconnected (l : Loop T) :
  ws_connected (globals l) = false -> loop_body l = Continues l.
Proof.
  intros H. unfold loop_body. rewrite H. reflexivity.
Qed.

Lemma sim_loop_disconnected (n : nat) (l : Loop T) :
  ws_connected (globals l) = false -> sim_loop n l = Continues l.
Proof.
  intros H. induction n as [|n IH]; [reflexivity|].
  cbn [sim_loop]. rewrite (loop_body_disconnected l H), IH.
  destruct (running (globals l)); reflexivity.
Qed.

(** A connected iteration whose step returns and whose pitot pressure
    rounds: the step, then the block, then the tick count, then the
    status line if it is due. *)
Lemma loop_body_connected (l : Loop T) (a : T) (p : Z) :
  ws_connected (globals l) = true ->
  as_number (throttle_angle (globals l)) = Some a ->
  num_round (pitot_pressure_of (globals_of (physics_step (globals l)))) = inr p ->
  loop_body l =
    after_status {| globals := globals_of (physics_step (globals l));
                    ws := send_block p (ws l);
                    tick := (tick l + 1)%Z |}.
Proof.
  intros Hc Ha Hp. unfold loop_body. rewrite Hc. cbn [negb].
  rewrite (physics_step_number (globals l) Ha) in *. cbn [globals_of] in Hp.
  unfold try_except_pass, send_block, py_round.
  unfold pitot_pressure_of in Hp.
  unfold bind at 1. rewrite Hp. reflexivity.
Qed.

(** When the pitot pressure does not round, nothing is sent. *)
Lemma loop_body_connected_no_round (l : Loop T) (a : T) (e : exn) :
  ws_connected (globals l) = true ->
  as_number (throttle_angle (globals l)) = Some a ->
  num_round (pitot_pressure_of (globals_of (physics_step (globals l)))) = inl e ->
  loop_body l =
    after_status {| globals := globals_of (physics_step (globals l));
                    ws := ws l;
                    tick := (tick l + 1)%Z |}.
Proof.
  intros Hc Ha Hp. unfold loop_body. rewrite Hc. cbn [negb].
  rewrite (physics_step_number (globals l) Ha) in *. cbn [globals_of] in Hp.
  unfold try_except_pass, py_round.
  unfold pitot_pressure_of in Hp.
  unfold bind at 1. rewrite Hp. reflexivity.
Qed.

Lemma loop_of_after_status (l' : Loop T) : loop_of (after_status l') = l'.
Proof.
  unfold after_status. destruct (tick l' mod 20 =? 0)%Z; [|reflexivity].
  destruct (status_line (globals l')); reflexivity.
Qed.

Lemma continues_after_status (l' : Loop T) :
  continues (after_status l') =
  negb (tick l' mod 20 =? 0)%Z
  || match status_line (globals l') with
     | None => true
     | Some _ => false
     end.
Proof.
  unfold after_status. destruct (tick l' mod 20 =? 0)%Z; [|reflexivity].
  destruct (status_line (globals l')); reflexivity.
Qed.

(** What the block does to the socket, by where the first fault
    falls. *)
Lemma send_block_first_fails (p : Z) (s : WebSocketApp T) (later : list bool) :
  faults s = true :: later ->
  send_block p s =
    {| attempted := attempted s ++ [pitot_frame p];
       delivered := delivered s;
       faults := later |}.
Proof.
  intros H. unfold send_block, bind, ws_send. rewrite H. reflexivity.
Qed.

Lemma send_block_second_fails (p : Z) (s : WebSocketApp T) (later : list bool) :
  faults s = false :: true :: later ->
  send_block p s =
    {| attempted := attempted s ++ [pitot_frame p; static_frame];
       delivered := delivered s ++ [pitot_frame p];
       faults := later |}.
Proof.
  intros H. unfold send_block, bind, ws_send. rewrite H. cbn.
  rewrite <- app_assoc. reflexivity.
Qed.

Lemma send_block_third_fails (p : Z) (s : WebSocketApp T) (later : list bool) :
  faults s = false :: false :: true :: later ->
  send_block p s =
    {| attempted := attempted s ++ [pitot_frame p; static_frame; poll_frame];
       delivered := delivered s ++ [pitot_frame p; static_frame];
       faults := later |}.
Proof.
  intros H. unfold send_block, bind, ws_send. rewrite H. cbn.
  rewrite <- !app_assoc. reflexivity.
Qed.

Lemma send_block_no_fault (p : Z) (s : WebSocketApp T) :
  existsb (fun b => b) (firstn 3 (faults s)) = false ->
  attempted (send_block p s) =
    attempted s ++ [pitot_frame p; static_frame; poll_frame] /\
  delivered (send_block p s) =
    delivered s ++ [pitot_frame p; static_frame; poll_frame].
Proof.
  intros H. unfold send_block, bind, ws_send.
  destruct (faults s) as [|[|] [|[|] [|[|] later]]]; try discriminate H;
    cbn; rewrite <- !app_assoc; split; reflexivity.
Qed.

(** The pitot frame is always attempted first. *)
Lemma send_block_starts_with_pitot (p : Z) (s : WebSocketApp T) :
  exists rest, attempted (send_block p s) = attempted s ++ pitot_frame p :: rest.
Proof.
  unfold send_block, bind, ws_send.
  destruct (faults s) as [|[|] [|[|] [|[|] later]]]; cbn;
    rewrite <- ?app_assoc; eexists; reflexivity.
Qed.

End LoopFacts.

(** * The claims *)

Local Open Scope string_scope.
Local Open Scope list_scope.

(** ** C1 *)

(** C1, as the code has it: once the connected flag is false, an
    iteration of the loop skips the physics step as well as the sends.
    Any number of iterations leaves the airspeed, the throttle position,
    the socket and the tick count as they were; in particular after
    [on_close]. *)
Theorem disconnected_ticks_skip_physics :
  forall (T : Type) (num : Number T),
    (forall (l : Loop T) (n : nat),
        ws_connected (globals l) = false ->
        loop_body l = Continues l /\ sim_loop n l = Continues l)
    /\
    (forall (l : Loop T) (n : nat),
        let dropped :=
          {| globals := on_close (globals l); ws := ws l; tick := tick l |} in
        sim_loop n dropped = Continues dropped /\
        airspeed_ms (globals (loop_of (sim_loop n dropped))) = airspeed_ms (globals l) /\
        throttle_angle (globals (loop_of (sim_loop n dropped))) = throttle_angle (globals l) /\
        attempted (ws (loop_of (sim_loop n dropped))) = attempted (ws l)).
Proof.
  intros T num. split.
  - intros l n H. split.
    + apply loop_body_disconnected. exact H.
    + apply sim_loop_disconnected. exact H.
  - intros l n dropped.
    assert (H : sim_loop n dropped = Continues dropped)
      by (apply sim_loop_disconnected; reflexivity).
    rewrite H. repeat split.
Qed.

Lemma disconnected_ticks_skip_physics_witness :
  let l : Loop float :=
    Samples.first_iteration (Samples.flying 40%float (VInt 90)) [] in
  let dropped := {| globals := on_close (globals l); ws := ws l; tick := tick l |} in
  ws_connected (globals dropped) = false /\
  loop_body dropped = Continues dropped /\
  sim_loop 20 dropped = Continues dropped.
Proof.
  intros l dropped. split; [reflexivity|].
  apply (proj1 (@disconnected_ticks_skip_physics float _) dropped 20%nat).
  reflexivity.
Defined.

(** C1 as stated fails: with the flag false and the aircraft at rest, an
    iteration leaves the airspeed at 0, where a physics step at the
    last-known throttle position would have raised it. *)
Lemma disconnected_tick_does_not_step :
  let l : Loop float :=
    Samples.first_iteration (on_close (Samples.initial true (VInt 0))) [] in
  ws_connected (globals l) = false /\
  airspeed_ms (globals (loop_of (loop_body l))) = 0%float /\
  PrimFloat.ltb 0 (airspeed_ms (globals_of (physics_step (globals l)))) = true /\
  globals (loop_of (loop_body l)) <> globals_of (physics_step (globals l)).
Proof.
  intros l. split; [reflexivity|]. split; [reflexivity|].
  assert (Hpos : PrimFloat.ltb 0 (airspeed_ms (globals_of (physics_step (globals l)))) = true)
    by (vm_compute; reflexivity).
  split; [exact Hpos|].
  intros Heq. rewrite <- Heq in Hpos. vm_compute in Hpos. discriminate Hpos.
Qed.

(** ** C2 *)




(** ** C3 *)



(** ** C4 *)

(** C4: the thrust is the linear interpolation between the idle thrust
    and the maximal thrust at the throttle position clamped to [0, 180];
    below 0 it is the thrust at 0, above 180 the thrust at 180.  Exact
    arithmetic first, binary64 second. *)
Theorem compute_thrust_interpolates :
  (forall p : Q,
      compute_thrust p ==
      inject_Z IDLE_THRUST
      + Qmax 0 (Qmin p 180) / 180 * (inject_Z MAX_THRUST - inject_Z IDLE_THRUST))%Q
  /\ (forall p : Q, p < 0 -> compute_thrust p == compute_thrust 0)%Q
  /\ (forall p : Q, 180 < p -> compute_thrust p == compute_thrust 180)%Q
  /\ (forall p : float,
      let clamped :=
        if PrimFloat.ltb 180 p then 180%float
        else if PrimFloat.ltb 0 p then p else 0%float in
      compute_thrust p = (50 + clamped / 180 * (2500 - 50))%float)
  /\ (forall p : float,
      PrimFloat.ltb p 0 = true -> compute_thrust p = compute_thrust 0%float)
  /\ (forall p : float,
      PrimFloat.ltb 180 p = true -> compute_thrust p = compute_thrust 180%float).
Proof.
  split; [|split; [|split; [|split; [|split]]]].
  - intros p. rewrite ExactFacts.compute_thrust_exact.
    change (inject_Z IDLE_THRUST) with 50%Q.
    change (inject_Z MAX_THRUST) with 2500%Q. field.
  - intros p Hp.
    rewrite (@ExactFacts.compute_thrust_idle p), (@ExactFacts.compute_thrust_idle 0);
      [reflexivity| |]; lra.
  - intros p Hp.
    rewrite (@ExactFacts.compute_thrust_full p), (@ExactFacts.compute_thrust_full 180);
      [reflexivity| |]; lra.
  - intros p. cbv zeta. unfold compute_thrust, pymax, pymin. Binary64Facts.float_ops.
    destruct Binary64Facts.literals as (-> & -> & -> & _).
    destruct (PrimFloat.ltb 180 p) eqn:E1.
    + reflexivity.
    + destruct (PrimFloat.ltb 0 p); reflexivity.
  - intros p Hp. apply Binary64Facts.compute_thrust_below. exact Hp.
  - intros p Hp. apply Binary64Facts.compute_thrust_above. exact Hp.
Qed.

Lemma compute_thrust_interpolates_witness :
  ((-30 < 0)%Q /\ (compute_thrust (-30) == compute_thrust 0)%Q) /\
  ((180 < 270)%Q /\ (compute_thrust 270 == compute_thrust 180)%Q) /\
  (PrimFloat.ltb (-30) 0 = true /\
   compute_thrust (-30)%float = compute_thrust 0%float) /\
  (PrimFloat.ltb 180 270 = true /\
   compute_thrust 270%float = compute_thrust 180%float).
Proof.
  destruct compute_thrust_interpolates as (_ & Hlo & Hhi & _ & Flo & Fhi).
  split; [split; [reflexivity|apply Hlo; reflexivity]|].
  split; [split; [reflexivity|apply Hhi; reflexivity]|].
  split; [split; [reflexivity|apply Flo; reflexivity]|].
  split; [reflexivity|apply Fhi; reflexivity].
Defined.

(** ** C5 *)

(** C5: with the parameters of the script, at rest with the throttle
    position at 180, one step computes a
    thrust of exactly 2500 N, a drag of exactly 0 and the acceleration
    2500/900, and leaves the airspeed 2500/900 * 0.05.  In binary64 the two
    quotients are within 1e-15 of 25/9 and of 5/36 and round to 2.778
    and 0.1389; in exact arithmetic they are 25/9 and 5/36. *)
Theorem full_throttle_first_step :
  (MASS = 900%Z /\ IDLE_THRUST = 50%Z /\ MAX_THRUST = 2500%Z /\
   STATIC_PRESSURE = 101325%Z /\
   @CD_A float _ = 1.2%float /\ @RHO float _ = 1.225%float /\
   @dt float _ = 0.05%float /\
   (@CD_A Q _ == 12 # 10 /\ @RHO Q _ == 1225 # 1000 /\ @dt Q _ == 5 # 100)%Q)
  /\
  (forall g : Globals float,
      let g0 := set_airspeed_ms (int 0) (set_throttle_angle (VInt 180) g) in
      let thrust : float := compute_thrust (int 180) in
      let drag : float := compute_drag (int 0) in
      let accel := ((thrust - drag) / int MASS)%py in
      thrust = 2500%float /\
      drag = 0%float /\
      accel = (2500 / 900)%float /\
      physics_step g0 = Returned (set_airspeed_ms (accel * dt)%py g0) /\
      (exists q, Binary64.to_Q accel = Some q /\
                 Qabs (q - (25 # 9)) < 1 # 1000000000000000 /\
                 Qabs (q - (2778 # 1000)) < 5 # 10000)%Q /\
      (exists q, Binary64.to_Q (accel * dt)%py = Some q /\
                 Qabs (q - (5 # 36)) < 1 # 1000000000000000 /\
                 Qabs (q - (1389 # 10000)) < 5 # 100000)%Q)
  /\
  (forall g : Globals Q,
      let g0 := set_airspeed_ms (int 0) (set_throttle_angle (VInt 180) g) in
      let thrust : Q := compute_thrust (int 180) in
      let drag : Q := compute_drag (int 0) in
      let accel := ((thrust - drag) / int MASS)%py in
      thrust == 2500 /\ drag == 0 /\ accel == 25 # 9 /\
      returned (physics_step g0) = true /\
      airspeed_ms (globals_of (physics_step g0)) == 5 # 36)%Q.
Proof.
  split; [repeat split|]. split.
  - intros g g0 thrust drag accel.
    split; [reflexivity|]. split; [reflexivity|]. split; [reflexivity|].
    split; [|split].
    + unfold g0. rewrite (@physics_step_number float _ _ (int 180)) by reflexivity.
      reflexivity.
    + eexists. split; [vm_compute; reflexivity|]. split; vm_compute; reflexivity.
    + eexists. split; [vm_compute; reflexivity|]. split; vm_compute; reflexivity.
  - intros g g0 thrust drag accel.
    split; [vm_compute; reflexivity|]. split; [vm_compute; reflexivity|].
    split; [vm_compute; reflexivity|]. split; [reflexivity|].
    vm_compute. reflexivity.
Qed.

(** ** C6 *)

(** C6, as the code has it: the handler stores the angle of the snapshot
    as it came, without clamping it; the clamp to [0, 180] is applied
    where the thrust is computed from the stored value.  So the stored
    throttle position is the angle of the last servo part, and the
    thrust is that of the clamped angle, which lies in [0, 180]. *)
Theorem snapshot_angle_stored_unclamped :
  (forall (T : Type) (json_loads : string -> exn + value T) (g : Globals T)
          (message : string) (msg before after attrs : list (string * value T))
          (pid : string) (angle : value T),
      json_loads message = inr (VDict msg) ->
      dict_get msg "type" VNone = VStr "state" ->
      dict_get msg "parts" (VDict []) = VDict (before ++ (pid, VDict attrs) :: after) ->
      forallb (fun p => is_dict (snd p)) before = true ->
      is_servo (VDict attrs) = true ->
      lookup "angle" attrs = Some angle ->
      forallb (fun p => negb (is_servo (snd p))) after = true ->
      throttle_angle (globals_of (on_message json_loads g message)) = angle)
  /\
  (forall a : Q,
      0 <= clamp_servo a <= 180 /\
      compute_thrust a == compute_thrust (clamp_servo a))%Q
  /\
  (forall a : float,
      PrimFloat.ltb (clamp_servo a) 0 = false /\
      PrimFloat.ltb 180 (clamp_servo a) = false /\
      compute_thrust a = compute_thrust (clamp_servo a)).
Proof.
  split; [|split].
  - intros T json_loads g message msg before after attrs pid angle
           Hl Ht Hp Hb Hs Ha Hafter.
    destruct (@on_message_state_globals T json_loads g _ _ _ Hl Ht Hp) as (-> & _).
    rewrite (scan_parts_last_servo before after pid attrs g Hb Hs Hafter).
    unfold dict_get. rewrite Ha. reflexivity.
  - intros a.
    assert (Hc : (clamp_servo a == Qmax 0 (Qmin a 180))%Q)
      by apply ExactFacts.clamp_servo_exact.
    assert (Hr : (0 <= clamp_servo a <= 180)%Q).
    { rewrite Hc. split; [apply Q.le_max_l|].
      apply Q.max_lub; [discriminate|apply Q.le_min_r]. }
    split; [exact Hr|].
    rewrite (ExactFacts.compute_thrust_exact a), <- Hc.
    rewrite (@ExactFacts.compute_thrust_linear (clamp_servo a) Hr). reflexivity.
  - intros a.
    assert (Hi : clamp_servo (clamp_servo a) = clamp_servo a)
      by (apply clamp_servo_idem; reflexivity).
    split; [|split].
    + unfold clamp_servo, pymax, pymin. Binary64Facts.float_ops.
      destruct Binary64Facts.literals as (-> & -> & _).
      destruct (PrimFloat.ltb 180 a) eqn:E1; [reflexivity|].
      destruct (PrimFloat.ltb 0 a) eqn:E2; [|reflexivity].
      apply Binary64Facts.above_zero. exact E2.
    + unfold clamp_servo, pymax, pymin. Binary64Facts.float_ops.
      destruct Binary64Facts.literals as (-> & -> & _).
      destruct (PrimFloat.ltb 180 a) eqn:E1; [reflexivity|].
      destruct (PrimFloat.ltb 0 a) eqn:E2; [exact E1|reflexivity].
    + unfold compute_thrust. cbv zeta.
      fold (clamp_servo a). fold (clamp_servo (clamp_servo a)).
      rewrite Hi. reflexivity.
Qed.

Lemma snapshot_angle_stored_unclamped_witness :
  let g : Globals float := Samples.initial true (VInt 0) in
  @Samples.sample_loads float Samples.snapshot_270_text
  = inr (Samples.servo_snapshot (VInt 270)) /\
  throttle_angle
    (globals_of (on_message Samples.sample_loads g Samples.snapshot_270_text))
  = VInt 270.
Proof.
  intros g. split; [reflexivity|].
  apply (proj1 snapshot_angle_stored_unclamped float Samples.sample_loads g
           Samples.snapshot_270_text
           [("type", VStr "state");
            ("parts", VDict [("bmp1", VDict [("type", VStr "wokwi-bmp180")]);
                             ("servo1", VDict [("type", VStr "wokwi-servo");
                                               ("angle", VInt 270)])]);
            ("serial", VList [])]
           [("bmp1", VDict [("type", VStr "wokwi-bmp180")])]
           []
           [("type", VStr "wokwi-servo"); ("angle", VInt 270)]
           "servo1" (VInt 270)); reflexivity.
Defined.

(** C6 as stated fails: a snapshot whose servo reports 270 degrees
    leaves 270 as the stored throttle position, above 180. *)
Lemma snapshot_angle_270_stored :
  let g : Globals float := Samples.initial true (VInt 0) in
  let after := on_message Samples.sample_loads g Samples.snapshot_270_text in
  @Samples.sample_loads float Samples.snapshot_270_text
  = inr (Samples.servo_snapshot (VInt 270)) /\
  after = Returned (set_throttle_angle (VInt 270) g) /\
  as_number (throttle_angle (globals_of after)) = Some 270%float /\
  PrimFloat.ltb 180 270 = true.
Proof.
  intros g after. repeat split.
Qed.

(** ** C7 *)

(** C7, as the code has it: on a connected iteration whose step returns,
    the sends come after the physics step, in the order pitot, static,
    poll, and all three go out when none of them fails.  They stand in
    one [try] block: the first send that fails ends the block, so the
    sends after it are not attempted.  The failure goes no further: the
    tick count advances, and whether the loop goes on depends on the
    status line alone, not on the sends. *)
Theorem connected_tick_sends :
  forall (T : Type) (num : Number T) (l : Loop T) (a : T) (p : Z),
    ws_connected (globals l) = true ->
    as_number (throttle_angle (globals l)) = Some a ->
    num_round (pitot_pressure_of (globals_of (physics_step (globals l)))) = inr p ->
    let frames := [pitot_frame p; static_frame; poll_frame] in
    let l' := loop_of (loop_body l) in
    globals l' = globals_of (physics_step (globals l)) /\
    tick l' = (tick l + 1)%Z /\
    continues (loop_body l) =
      negb (tick l' mod 20 =? 0)%Z
      || match status_line (globals l') with
         | None => true
         | Some _ => false
         end /\
    (exists rest, attempted (ws l') = attempted (ws l) ++ pitot_frame p :: rest) /\
    (existsb (fun b => b) (firstn 3 (faults (ws l))) = false ->
     attempted (ws l') = attempted (ws l) ++ frames /\
     delivered (ws l') = delivered (ws l) ++ frames) /\
    (forall later, faults (ws l) = true :: later ->
     attempted (ws l') = attempted (ws l) ++ firstn 1 frames /\
     delivered (ws l') = delivered (ws l)) /\
    (forall later, faults (ws l) = false :: true :: later ->
     attempted (ws l') = attempted (ws l) ++ firstn 2 frames /\
     delivered (ws l') = delivered (ws l) ++ firstn 1 frames) /\
    (forall later, faults (ws l) = false :: false :: true :: later ->
     attempted (ws l') = attempted (ws l) ++ frames /\
     delivered (ws l') = delivered (ws l) ++ firstn 2 frames).
Proof.
  intros T num l a p Hc Ha Hp frames l'.
  assert (Hl : l' = {| globals := globals_of (physics_step (globals l));
                       ws := send_block p (ws l);
                       tick := (tick l + 1)%Z |}).
  { unfold l'. rewrite (loop_body_connected l Hc Ha Hp). apply loop_of_after_status. }
  rewrite (loop_body_connected l Hc Ha Hp), continues_after_status.
  rewrite Hl. cbn [globals tick ws].
  split; [reflexivity|]. split; [reflexivity|]. split; [reflexivity|].
  split; [apply send_block_starts_with_pitot|].
  split; [apply send_block_no_fault|].
  split; [|split].
  - intros later H. rewrite (send_block_first_fails p (ws l) H). split; reflexivity.
  - intros later H. rewrite (send_block_second_fails p (ws l) H). split; reflexivity.
  - intros later H. rewrite (send_block_third_fails p (ws l) H). split; reflexivity.
Qed.

Lemma connected_tick_sends_witness :
  let l : Loop float :=
    Samples.first_iteration (Samples.flying 40%float (VInt 90)) [false; true] in
  let l' := loop_of (loop_body l) in
  (ws_connected (globals l) = true /\
   as_number (throttle_angle (globals l)) = Some 90%float /\
   num_round (pitot_pressure_of (globals_of (physics_step (globals l)))) = inr 102305%Z) /\
  tick l' = 1%Z /\
  attempted (ws l') = [pitot_frame 102305; static_frame] /\
  delivered (ws l') = [pitot_frame 102305].
Proof.
  intros l l'.
  assert (Hc : ws_connected (globals l) = true) by reflexivity.
  assert (Ha : as_number (throttle_angle (globals l)) = Some 90%float) by reflexivity.
  assert (Hp : num_round (pitot_pressure_of (globals_of (physics_step (globals l))))
               = inr 102305%Z) by (vm_compute; reflexivity).
  split; [repeat split; assumption|].
  destruct (@connected_tick_sends float _ l 90%float 102305%Z Hc Ha Hp)
    as (_ & Ht & _ & _ & _ & _ & H2 & _).
  split; [exact Ht|].
  apply (H2 []). reflexivity.
Defined.

(** C7 as stated fails: when the pitot send fails, the static update and
    the poll request of that iteration are never attempted. *)
Lemma failed_pitot_send_skips_the_rest :
  let l : Loop float :=
    Samples.first_iteration (Samples.initial true (VInt 0)) [true] in
  let l' := loop_of (loop_body l) in
  ws_connected (globals l) = true /\
  attempted (ws l') = [pitot_frame 101325] /\
  delivered (ws l') = [] /\
  ~ In static_frame (attempted (ws l')) /\
  ~ In poll_frame (attempted (ws l')).
Proof.
  intros l l'.
  assert (Hatt : attempted (ws l') = [pitot_frame 101325]) by (vm_compute; reflexivity).
  split; [reflexivity|]. split; [exact Hatt|]. split; [vm_compute; reflexivity|].
  rewrite Hatt. split; intros [H|[]]; discriminate H.
Qed.

(** ** C8 *)

(** C8: a frame that [json.loads] rejects as not being JSON makes the
    handler return without raising, with the globals (airspeed and
    throttle position among them) as they were. *)
Theorem malformed_frame_is_noop :
  forall (T : Type) (json_loads : string -> exn + value T)
         (g : Globals T) (message : string),
    json_loads message = inl JSONDecodeError ->
    on_message json_loads g message = Returned g.
Proof.
  intros T json_loads g message H. unfold on_message. rewrite H. reflexivity.
Qed.

Lemma malformed_frame_is_noop_witness :
  let g : Globals float := Samples.flying 40%float (VInt 90) in
  @Samples.sample_loads float Samples.malformed_text = inl JSONDecodeError /\
  on_message Samples.sample_loads g Samples.malformed_text = Returned g.
Proof.
  intros g. split; [reflexivity|].
  apply (@malformed_frame_is_noop float Samples.sample_loads g Samples.malformed_text).
  reflexivity.
Defined.

(** ** C9 *)

(** C9, as the code has it: the objects sent carry the key ["cmd"], not
    ["command"].  On a connected iteration whose step returns, every
    frame handed to [send] is one of three objects: the pitot update
    [{cmd: set-control, partId: pitot, control: pressure, value}] whose
    value is the rounded pitot pressure, the static update with the
    same keys and the constant 101325, and the poll [{cmd: get-state}];
    and these three go out, in this order, when no send fails. *)
Theorem outbound_frames_use_cmd_key :
  forall (T : Type) (num : Number T) (l : Loop T) (a : T) (p : Z),
    ws_connected (globals l) = true ->
    as_number (throttle_angle (globals l)) = Some a ->
    num_round (pitot_pressure_of (globals_of (physics_step (globals l)))) = inr p ->
    let pitot : value T :=
      VDict [("cmd", VStr "set-control"); ("partId", VStr "pitot");
             ("control", VStr "pressure"); ("value", VInt p)] in
    let static : value T :=
      VDict [("cmd", VStr "set-control"); ("partId", VStr "static");
             ("control", VStr "pressure"); ("value", VInt 101325)] in
    let poll : value T := VDict [("cmd", VStr "get-state")] in
    let l' := loop_of (loop_body l) in
    (exists sent,
        attempted (ws l') = attempted (ws l) ++ sent /\
        forall f, In f sent -> f = pitot \/ f = static \/ f = poll) /\
    (existsb (fun b => b) (firstn 3 (faults (ws l))) = false ->
     delivered (ws l') = delivered (ws l) ++ [pitot; static; poll]) /\
    item pitot "cmd" = Some (VStr "set-control") /\
    item static "cmd" = Some (VStr "set-control") /\
    item poll "cmd" = Some (VStr "get-state") /\
    item pitot "command" = None /\
    item static "command" = None /\
    item poll "command" = None.
Proof.
  intros T num l a p Hc Ha Hp pitot static poll l'.
  assert (Hl : l' = {| globals := globals_of (physics_step (globals l));
                       ws := send_block p (ws l);
                       tick := (tick l + 1)%Z |}).
  { unfold l'. rewrite (loop_body_connected l Hc Ha Hp). apply loop_of_after_status. }
  rewrite Hl. cbn [ws].
  split; [|split; [|repeat split]].
  - unfold send_block, bind, ws_send.
    destruct (faults (ws l)) as [|[|] [|[|] [|[|] later]]]; cbn;
      rewrite <- ?app_assoc; eexists; (split; [reflexivity|]);
      cbn; intros f Hf; intuition auto.
  - intros H. apply (send_block_no_fault p (ws l) H).
Qed.

Lemma outbound_frames_use_cmd_key_witness :
  let l : Loop float :=
    Samples.first_iteration (Samples.flying 40%float (VInt 90)) [] in
  (ws_connected (globals l) = true /\
   as_number (throttle_angle (globals l)) = Some 90%float /\
   num_round (pitot_pressure_of (globals_of (physics_step (globals l)))) = inr 102305%Z) /\
  delivered (ws (loop_of (loop_body l))) =
    [VDict [("cmd", VStr "set-control"); ("partId", VStr "pitot");
            ("control", VStr "pressure"); ("value", VInt 102305)];
     VDict [("cmd", VStr "set-control"); ("partId", VStr "static");
            ("control", VStr "pressure"); ("value", VInt 101325)];
     VDict [("cmd", VStr "get-state")]].
Proof.
  intros l.
  assert (Hc : ws_connected (globals l) = true) by reflexivity.
  assert (Ha : as_number (throttle_angle (globals l)) = Some 90%float) by reflexivity.
  assert (Hp : num_round (pitot_pressure_of (globals_of (physics_step (globals l))))
               = inr 102305%Z) by (vm_compute; reflexivity).
  split; [repeat split; assumption|].
  destruct (@outbound_frames_use_cmd_key float _ l 90%float 102305%Z Hc Ha Hp)
    as (_ & H & _).
  apply H. reflexivity.
Defined.

(** C9 as stated fails: none of the three objects sent in an iteration
    has a key ["command"]; the command name is under ["cmd"]. *)
Lemma outbound_frames_have_no_command_key :
  let l : Loop float :=
    Samples.first_iteration (Samples.initial true (VInt 0)) [] in
  let sent := delivered (ws (loop_of (loop_body l))) in
  List.length sent = 3%nat /\
  map (fun f => item f "command") sent = [None; None; None] /\
  map (fun f => item f "cmd") sent =
    [Some (VStr "set-control"); Some (VStr "set-control"); Some (VStr "get-state")].
Proof.
  intros l sent. repeat split.
Qed.

(** ** C10 *)

(** C10: in a snapshot the last servo part in iteration order decides
    the stored throttle position: it becomes that part's angle, and 0
    when that part has no angle, whatever the position was before. *)
Theorem last_servo_angle_or_default :
  forall (T : Type) (json_loads : string -> exn + value T) (g : Globals T)
         (message : string) (msg before after attrs : list (string * value T))
         (pid : string),
    json_loads message = inr (VDict msg) ->
    dict_get msg "type" VNone = VStr "state" ->
    dict_get msg "parts" (VDict []) = VDict (before ++ (pid, VDict attrs) :: after) ->
    forallb (fun p => is_dict (snd p)) before = true ->
    is_servo (VDict attrs) = true ->
    forallb (fun p => negb (is_servo (snd p))) after = true ->
    let stored := throttle_angle (globals_of (on_message json_loads g message)) in
    stored = dict_get attrs "angle" (VInt 0) /\
    (lookup "angle" attrs = None -> stored = VInt 0) /\
    (forall angle, lookup "angle" attrs = Some angle -> stored = angle).
Proof.
  intros T json_loads g message msg before after attrs pid Hl Ht Hp Hb Hs Hafter stored.
  assert (H : stored = dict_get attrs "angle" (VInt 0)).
  { unfold stored.
    destruct (@on_message_state_globals T json_loads g _ _ _ Hl Ht Hp) as (-> & _).
    apply scan_parts_last_servo; assumption. }
  split; [exact H|]. unfold dict_get in H.
  split.
  - intros Hn. rewrite Hn in H. exact H.
  - intros angle Ha. rewrite Ha in H. exact H.
Qed.

Lemma last_servo_angle_or_default_witness :
  let g : Globals float := Samples.flying 40%float (VInt 90) in
  @Samples.sample_loads float Samples.snapshot_no_angle_text
  = inr Samples.servo_snapshot_no_angle /\
  throttle_angle g = VInt 90 /\
  throttle_angle
    (globals_of (on_message Samples.sample_loads g Samples.snapshot_no_angle_text))
  = VInt 0.
Proof.
  intros g. split; [reflexivity|]. split; [reflexivity|].
  destruct (@last_servo_angle_or_default float Samples.sample_loads g
              Samples.snapshot_no_angle_text
              [("type", VStr "state");
               ("parts", VDict [("servo1", VDict [("type", VStr "wokwi-servo")])]);
               ("serial", VList [])]
              [] [] [("type", VStr "wokwi-servo")] "servo1"
              eq_refl eq_refl eq_refl eq_refl eq_refl eq_refl) as (_ & H & _).
  apply H. reflexivity.
Defined.

(** * Further properties *)

(** ** The physics in exact arithmetic *)

Module ExactMore.

Import ExactFacts.
Local Open Scope Q_scope.



Lemma compute_drag_forward (v : Q) :
  0 <= v -> compute_drag v == (735 # 1000) * (v * v).
Proof. intros H. rewrite compute_drag_exact, Qabs_pos by exact H. reflexivity. Qed.

Lemma compute_drag_odd (v : Q) : compute_drag (- v) == - compute_drag v.
Proof. rewrite !compute_drag_exact, Qabs_opp. ring. Qed.

Lemma square_nonneg (v : Q) : 0 <= v * v.
Proof. nra. Qed.





Lemma Qfloor_above (n : Z) (x : Q) : inject_Z n <= x -> (n <= Qfloor x)%Z.
Proof.
  intros H. rewrite <- (Qfloor_Z n). apply Qfloor_resp_le. exact H.
Qed.

Lemma Qround_half_even_above (n : Z) (x : Q) :
  inject_Z n <= x -> (n <= Qround_half_even x)%Z.
Proof.
  intros H. pose proof (Qfloor_above H) as Hf. unfold Qround_half_even.
  destruct (Qcompare _ _); [destruct (Z.even _)| |]; lia.
Qed.

Lemma dynamic_pressure_nonneg (v : Q) : 0 <= compute_dynamic_pressure v.
Proof.
  rewrite compute_dynamic_pressure_exact. pose proof (square_nonneg v). lra.
Qed.

Lemma pitot_pressure_exact (g : Globals Q) :
  pitot_pressure_of g == 101325 + compute_dynamic_pressure (airspeed_ms g).
Proof. unfold pitot_pressure_of. exact_ops. reflexivity. Qed.

Lemma pitot_rounds_above_static (g : Globals Q) :
  exists p, num_round (pitot_pressure_of g) = inr p /\ (101325 <= p)%Z.
Proof.
  eexists. split; [reflexivity|]. apply Qround_half_even_above.
  rewrite pitot_pressure_exact. pose proof (dynamic_pressure_nonneg (airspeed_ms g)).
  change (inject_Z 101325) with 101325. lra.
Qed.


End ExactMore.

(** ** Signs and NaNs in binary64 *)

Module Binary64More.

Lemma binary_round_aux_signed (p em : Z) (sx : bool) (mx ex : Z) (lx : location) :
  signed sx (binary_round_aux p em sx mx ex lx).
Proof.
  unfold binary_round_aux.
  destruct (shr_fexp p em mx ex lx) as [mrs' e'].
  destruct (shr_fexp p em _ e' loc_Exact) as [mrs'' e''].
  destruct (shr_m mrs''); cbn; auto.
  destruct (Z.leb _ _); cbn; auto.
Qed.

Lemma SFmul_signed (sx sy : bool) (x y : spec_float) :
  signed sx x -> signed sy y -> signed (xorb sx sy) (SFmul prec emax x y).
Proof.
  destruct x as [s1|s1| |s1 m1 e1], y as [s2|s2| |s2 m2 e2]; cbn;
    intros H1 H2; subst; auto.
  apply binary_round_aux_signed.
Qed.

Lemma has_sign (f : spec_float) : exists s, signed s f.
Proof.
  destruct f as [s|s| |s m e]; cbn; eauto. exists true. exact I.
Qed.

Ltac against_zero :=
  rewrite FloatAxioms.ltb_spec; unfold SFltb;
  let c := fresh "c" in
  set (c := Prim2SF 0); vm_compute in c; subst c.

Lemma signed_not_below_zero (x : float) :
  signed false (Prim2SF x) -> PrimFloat.ltb x 0 = false.
Proof.
  against_zero.
  destruct (Prim2SF x) as [s|s| |s m e]; cbn; intros H; subst; reflexivity.
Qed.

Lemma signed_not_above_zero (x : float) :
  signed true (Prim2SF x) -> PrimFloat.ltb 0 x = false.
Proof.
  against_zero.
  destruct (Prim2SF x) as [s|s| |s m e]; cbn; intros H; subst; reflexivity.
Qed.

Lemma not_below_zero_signed (x : float) :
  PrimFloat.ltb x 0 = false -> signed false (Prim2SF x).
Proof.
  against_zero.
  destruct (Prim2SF x) as [s|s| |s m e]; cbn; auto; destruct s; cbn; auto; discriminate.
Qed.

Lemma not_above_zero_signed (x : float) :
  PrimFloat.ltb 0 x = false -> signed true (Prim2SF x).
Proof.
  against_zero.
  destruct (Prim2SF x) as [s|s| |s m e]; cbn; auto; destruct s; cbn; auto; discriminate.
Qed.

Lemma mul_signed (sx sy : bool) (x y : float) :
  signed sx (Prim2SF x) -> signed sy (Prim2SF y) ->
  signed (xorb sx sy) (Prim2SF (x * y)%float).
Proof. rewrite FloatAxioms.mul_spec. apply SFmul_signed. Qed.

Lemma abs_signed (x : float) : signed false (Prim2SF (PrimFloat.abs x)).
Proof.
  rewrite FloatAxioms.abs_spec. destruct (Prim2SF x); cbn; auto.
Qed.

Lemma dynamic_pressure_signed (v : float) :
  signed false (Prim2SF (compute_dynamic_pressure v)).
Proof.
  unfold compute_dynamic_pressure. cbn [num_mul Binary64.number].
  destruct (has_sign (Prim2SF v)) as [s Hs].
  replace false with (xorb (xorb false s) s) by (destruct s; reflexivity).
  apply mul_signed; [|exact Hs]. apply mul_signed; [|exact Hs].
  vm_compute. reflexivity.
Qed.

Lemma drag_signed (s : bool) (v : float) :
  signed s (Prim2SF v) -> signed s (Prim2SF (compute_drag v)).
Proof.
  intros Hs. unfold compute_drag. cbn [num_mul num_abs Binary64.number].
  replace s with (xorb (xorb (xorb false s) false) false) by (destruct s; reflexivity).
  apply mul_signed; [|vm_compute; reflexivity].
  apply mul_signed; [|apply abs_signed].
  apply mul_signed; [vm_compute; reflexivity|].
  replace (xorb (xorb (xorb false s) false) false) with s by (destruct s; reflexivity).
  exact Hs.
Qed.

(** A float that differs from itself is the NaN. *)
Lemma SFcompare_refl (f : spec_float) :
  f <> S754_nan -> SFcompare f f = Some Eq.
Proof.
  destruct f as [s|s| |s m e]; cbn; intros H; try reflexivity.
  - destruct s; reflexivity.
  - contradiction.
  - destruct s; rewrite Z.compare_refl, Pos.compare_cont_refl; reflexivity.
Qed.

Lemma is_nan (x : float) : PrimFloat.eqb x x = false -> Prim2SF x = S754_nan.
Proof.
  rewrite FloatAxioms.eqb_spec. unfold SFeqb. intros H.
  destruct (Prim2SF x) as [s|s| |s m e] eqn:E; try reflexivity;
    rewrite SFcompare_refl in H by discriminate; discriminate H.
Qed.

Lemma nan_compares_false (x c : float) :
  Prim2SF x = S754_nan -> PrimFloat.ltb c x = false /\ PrimFloat.ltb x c = false.
Proof.
  intros H. rewrite !FloatAxioms.ltb_spec, H. unfold SFltb.
  destruct (Prim2SF c); split; reflexivity.
Qed.

Lemma nan_div (x c : float) : Prim2SF x = S754_nan -> Prim2SF (x / c)%float = S754_nan.
Proof. intros H. rewrite FloatAxioms.div_spec, H. reflexivity. Qed.

Lemma nan_mul (x c : float) : Prim2SF x = S754_nan -> Prim2SF (x * c)%float = S754_nan.
Proof. intros H. rewrite FloatAxioms.mul_spec, H. reflexivity. Qed.

Lemma nan_round (x : float) :
  Prim2SF x = S754_nan -> Binary64.float_round x = inl ValueError.
Proof.
  intros H. unfold Binary64.float_round, Binary64.to_Q. rewrite H.
  rewrite FloatAxioms.eqb_spec, H. reflexivity.
Qed.

End Binary64More.

(** ** More on the loop *)

Section LoopMore.

Context {T : Type} {num : Number T}.

(** The globals an iteration leaves: those of the step when the flag is
    up, the same otherwise; crashing or not. *)
Lemma loop_body_globals (l : Loop T) :
  globals (loop_of (loop_body l)) =
  if ws_connected (globals l) then globals_of (physics_step (globals l))
  else globals l.
Proof.
  unfold loop_body. destruct (ws_connected (globals l)); cbn [negb]; [|reflexivity].
  destruct (physics_step (globals l)) as [g|e g]; [|reflexivity].
  cbv zeta. cbn [tick]. destruct (_ =? 0)%Z; [|reflexivity].
  destruct (status_line g); reflexivity.
Qed.

(** What every step keeps, every run of the loop keeps. *)
Lemma sim_loop_invariant (P : Globals T -> Prop) :
  (forall g, P g -> P (globals_of (physics_step g))) ->
  forall n l, P (globals l) -> P (globals (loop_of (sim_loop n l))).
Proof.
  intros Hstep n. induction n as [|n IH]; intros l Hl; [exact Hl|].
  cbn [sim_loop]. destruct (running (globals l)); [|exact Hl].
  assert (Hb : P (globals (loop_of (loop_body l)))).
  { rewrite loop_body_globals. destruct (ws_connected (globals l)); auto. }
  destruct (loop_body l) as [l'|e l']; [apply IH; exact Hb|exact Hb].
Qed.

Lemma loop_body_same (l1 l2 : Loop T) :
  same_simulation l1 l2 -> same_outcome (loop_body l1) (loop_body l2).
Proof.
  intros [Hg Ht]. unfold loop_body. rewrite <- Hg, <- Ht.
  destruct (ws_connected (globals l1)); cbn [negb].
  2:{ split; assumption. }
  destruct (physics_step (globals l1)) as [g|e g].
  2:{ repeat split. }
  cbv zeta. cbn [tick]. destruct (_ =? 0)%Z.
  - destruct (status_line g); repeat split.
  - repeat split.
Qed.

Lemma sim_loop_same (n : nat) (l1 l2 : Loop T) :
  same_simulation l1 l2 -> same_outcome (sim_loop n l1) (sim_loop n l2).
Proof.
  revert l1 l2. induction n as [|n IH]; intros l1 l2 H; [exact H|].
  cbn [sim_loop]. destruct H as [Hg Ht]. rewrite <- Hg.
  destruct (running (globals l1)); [|split; assumption].
  pose proof (@loop_body_same l1 l2 (conj Hg Ht)) as Hb.
  destruct (loop_body l1) as [a|e a], (loop_body l2) as [b|e' b];
    cbn in Hb; try contradiction.
  - apply IH. exact Hb.
  - exact Hb.
Qed.

(** A connected iteration whose step returns reaches the status line,
    whatever the sends did. *)
Lemma loop_body_reaches_status (l : Loop T) (a : T) :
  ws_connected (globals l) = true ->
  as_number (throttle_angle (globals l)) = Some a ->
  exists s,
    loop_body l =
    after_status {| globals := globals_of (physics_step (globals l));
                    ws := s; tick := (tick l + 1)%Z |}.
Proof.
  intros Hc Ha.
  destruct (num_round (pitot_pressure_of (globals_of (physics_step (globals l)))))
    as [e|p] eqn:Hp.
  - eexists. apply (loop_body_connected_no_round l Hc Ha Hp).
  - eexists. apply (loop_body_connected l Hc Ha Hp).
Qed.

(** A step that raises ends the loop before anything is sent. *)
Lemma loop_body_type_error (l : Loop T) :
  ws_connected (globals l) = true ->
  as_number (throttle_angle (globals l)) = None ->
  loop_body l = Crashes TypeError l.
Proof.
  intros Hc Ha. unfold loop_body. rewrite Hc. cbn [negb].
  rewrite (physics_step_type_error (globals l) Ha). destruct l; reflexivity.
Qed.


Lemma reopen (g : Globals T) :
  ws_connected g = true -> on_open (on_close g) = g.
Proof.
  intros H. destruct g. cbn in *. subst. reflexivity.
Qed.

End LoopMore.

(** ** More on the message handler *)

Section MessageMore.

Context {T : Type}.
Variable json_loads : string -> exn + value T.

Lemma scan_parts_set_serial (parts : list (string * value T)) (g : Globals T) (s : value T) :
  scan_parts parts (set_last_serial_lines s g) =
  match scan_parts parts g with
  | Returned g' => Returned (set_last_serial_lines s g')
  | Raised e g' => Raised e (set_last_serial_lines s g')
  end.
Proof.
  revert g. induction parts as [|[pid info] rest IH]; intros g; [reflexivity|].
  cbn [scan_parts]. destruct info; try reflexivity.
  destruct (eq_str _ _); [|apply IH].
  rewrite <- IH. reflexivity.
Qed.

Lemma set_throttle_back (a : value T) (g g' : Globals T) :
  airspeed_ms g' = airspeed_ms g -> ws_connected g' = ws_connected g ->
  running g' = running g -> last_serial_lines g' = last_serial_lines g ->
  set_throttle_angle a g' = set_throttle_angle a g.
Proof.
  intros H1 H2 H3 H4. destruct g, g'. cbn in *. subst. reflexivity.
Qed.

(** Scanning again from where a scan ended repeats its outcome. *)
Lemma scan_parts_again (parts : list (string * value T)) (g : Globals T) :
  scan_parts parts (globals_of (scan_parts parts g)) = scan_parts parts g.
Proof.
  revert g. induction parts as [|[pid info] rest IH]; intros g; [reflexivity|].
  cbn [scan_parts]. destruct info as [ | | | | | |attrs]; try reflexivity.
  destruct (eq_str (dict_get attrs "type" VNone) "wokwi-servo") eqn:E; [|apply IH].
  set (g1 := set_throttle_angle (dict_get attrs "angle" (VInt 0)) g).
  destruct (scan_parts_throttle_only rest g1) as (H1 & H2 & H3 & H4).
  rewrite (@set_throttle_back (dict_get attrs "angle" (VInt 0)) _ _ H1 H2 H3 H4).
  replace (set_throttle_angle (dict_get attrs "angle" (VInt 0)) g1) with g1
    by (unfold g1; destruct g; reflexivity).
  reflexivity.
Qed.

(** What the handler leaves alone. *)
Lemma on_message_keeps (g : Globals T) (message : string) :
  airspeed_ms (globals_of (on_message json_loads g message)) = airspeed_ms g /\
  running (globals_of (on_message json_loads g message)) = running g /\
  ws_connected (globals_of (on_message json_loads g message)) = ws_connected g.
Proof.
  unfold on_message.
  destruct (json_loads message) as [[]|[ | | | | | |msg]]; try (repeat split; reflexivity).
  destruct (eq_str (dict_get msg "type" VNone) "ready").
  { destruct (list_parts _); repeat split; reflexivity. }
  destruct (eq_str (dict_get msg "type" VNone) "state").
  { destruct (dict_get msg "parts" (VDict [])) as [ | | | | | |parts];
      try (repeat split; reflexivity).
    destruct (scan_parts_throttle_only parts g) as (H1 & H2 & H3 & _).
    destruct (scan_parts parts g); repeat split; assumption. }
  destruct (eq_str (dict_get msg "type" VNone) "serial").
  { destruct (dict_get msg "data" _); repeat split; reflexivity. }
  destruct (eq_str (dict_get msg "type" VNone) "error"); repeat split; reflexivity.
Qed.

End MessageMore.

(** ** Start-up *)

Section MainFacts.

(** The loop over [sys.argv[1:]] looks at each argument together with
    the next one. *)
Lemma url_loop_scan (before args : list string) (url : string) :
  url_loop (before ++ args) (List.length before) args url = url_scan args url.
Proof.
  revert before url. induction args as [|arg rest IH]; intros before url; [reflexivity|].
  cbn [url_loop].
  replace (before ++ arg :: rest) with ((before ++ [arg]) ++ rest)
    by (rewrite <- app_assoc; reflexivity).
  replace (S (List.length before)) with (List.length (before ++ [arg]))
    by (rewrite length_app; cbn; lia).
  rewrite IH. destruct rest as [|next rest'].
  - cbn [url_scan].
    replace (List.length before <? List.length ((before ++ [arg]) ++ []) - 1)%nat
      with false.
    2:{ symmetry. apply Nat.ltb_ge. rewrite !length_app. cbn. lia. }
    rewrite andb_false_r. reflexivity.
  - cbn [url_scan]. f_equal.
    replace (List.length before <? List.length ((before ++ [arg]) ++ next :: rest') - 1)%nat
      with true.
    2:{ symmetry. apply Nat.ltb_lt. rewrite !length_app. cbn. lia. }
    rewrite andb_true_r.
    replace (nth (List.length before + 1) ((before ++ [arg]) ++ next :: rest') EmptyString)
      with next.
    2:{ rewrite app_nth2 by (rewrite length_app; cbn; lia).
        rewrite length_app. cbn [List.length].
        replace (List.length before + 1 - (List.length before + 1))%nat with 0%nat by lia.
        reflexivity. }
    reflexivity.
Qed.

Lemma parse_url_scan (prog : string) (args : list string) :
  parse_url (prog :: args) = url_scan args default_url.
Proof.
  unfold parse_url. cbn [tl]. apply (url_loop_scan [prog] args).
Qed.

Lemma url_scan_step (arg next : string) (rest : list string) (url : string) :
  url_scan (arg :: next :: rest) url =
  url_scan (next :: rest) (if String.eqb arg "--url" then next else url).
Proof. reflexivity. Qed.

Lemma url_scan_no_option (args : list string) (url : string) :
  ~ In "--url" args -> url_scan args url = url.
Proof.
  revert url. induction args as [|arg rest IH]; intros url H; [reflexivity|].
  destruct rest as [|next rest']; [reflexivity|].
  rewrite url_scan_step.
  destruct (String.eqb_spec arg "--url") as [E|E].
  - exfalso. apply H. left. exact E.
  - apply IH. intros Hin. apply H. right. exact Hin.
Qed.

Lemma url_scan_final_option (before : list string) (u url : string) :
  url_scan (before ++ ["--url"; u]) url = u.
Proof.
  revert url. induction before as [|arg rest IH]; intros url; [reflexivity|].
  cbn [app]. destruct (rest ++ ["--url"; u]) as [|next rest'] eqn:E.
  - destruct rest; discriminate E.
  - rewrite url_scan_step. apply IH.
Qed.

Lemma url_scan_dangling_option (before : list string) (url : string) :
  last before EmptyString <> "--url" ->
  url_scan (before ++ ["--url"]) url = url_scan before url.
Proof.
  revert url. induction before as [|arg rest IH]; intros url H; [reflexivity|].
  destruct rest as [|next rest'].
  - cbn. cbn in H. destruct (String.eqb_spec arg "--url"); [contradiction|reflexivity].
  - cbn [app]. rewrite !url_scan_step. apply (IH _ H).
Qed.

(** The wait: with the flag down at every read, all polls are used;
    with the flag up at read [k], the wait ends there. *)
Lemma wait_all_down (polls : nat) (flag_at : nat -> bool) (reads : nat) :
  (forall i, (reads <= i < reads + polls)%nat -> flag_at i = false) ->
  wait_for_connection polls flag_at reads = (reads + polls)%nat.
Proof.
  revert reads. induction polls as [|polls IH]; intros reads H; cbn [wait_for_connection].
  - lia.
  - rewrite (H reads) by lia. rewrite IH; [lia|]. intros i Hi. apply H. lia.
Qed.

Lemma wait_until_up (polls : nat) (flag_at : nat -> bool) (reads k : nat) :
  (reads <= k < reads + polls)%nat ->
  (forall i, (reads <= i < k)%nat -> flag_at i = false) ->
  flag_at k = true ->
  wait_for_connection polls flag_at reads = S k.
Proof.
  revert reads. induction polls as [|polls IH]; intros reads Hk Hdown Hup; [lia|].
  cbn [wait_for_connection]. destruct (Nat.eq_dec reads k) as [->|Hne].
  - rewrite Hup. reflexivity.
  - rewrite (Hdown reads) by lia. apply IH; [lia| |exact Hup].
    intros i Hi. apply Hdown. lia.
Qed.

End MainFacts.

(** * Further statements *)

(** ** X1 *)



(** ** X2 *)

(** X2: the drag opposes the motion.  In exact arithmetic it is an odd
    function of the airspeed, at least 0 forwards and at most 0
    backwards; in binary64 it is never negative for an airspeed that is
    not negative and never positive for one that is not positive. *)
Theorem drag_opposes_motion :
  (forall v : Q,
      compute_drag (- v) == - compute_drag v /\
      (0 <= v -> 0 <= compute_drag v) /\
      (v <= 0 -> compute_drag v <= 0))%Q
  /\
  (forall v : float,
      (PrimFloat.ltb v 0 = false -> PrimFloat.ltb (compute_drag v) 0 = false) /\
      (PrimFloat.ltb 0 v = false -> PrimFloat.ltb 0 (compute_drag v) = false)).
Proof.
  split.
  - intros v. split; [apply ExactMore.compute_drag_odd|]. split; intros H.
    + rewrite (ExactMore.compute_drag_forward H).
      pose proof (ExactMore.square_nonneg v). lra.
    + assert (Hn : (0 <= - v)%Q) by lra.
      pose proof (ExactMore.compute_drag_odd v) as Ho.
      rewrite (ExactMore.compute_drag_forward Hn) in Ho.
      pose proof (ExactMore.square_nonneg (- v)). lra.
  - intros v. split; intros H.
    + apply Binary64More.signed_not_below_zero, Binary64More.drag_signed,
        Binary64More.not_below_zero_signed. exact H.
    + apply Binary64More.signed_not_above_zero, Binary64More.drag_signed,
        Binary64More.not_above_zero_signed. exact H.
Qed.

Lemma drag_opposes_motion_witness :
  ((0 <= 40)%Q /\ (0 <= compute_drag 40)%Q) /\
  (PrimFloat.ltb 0 (-3) = false /\ PrimFloat.ltb 0 (compute_drag (-3)%float) = false).
Proof.
  destruct drag_opposes_motion as [HQ HF]. split; split.
  - discriminate.
  - apply (HQ 40%Q). discriminate.
  - reflexivity.
  - apply (HF (-3)%float). reflexivity.
Defined.

(** ** X3 *)

(** X3: the dynamic pressure is never negative, in exact arithmetic and
    in binary64, for every airspeed; so in exact arithmetic the pitot
    pressure is at least the static pressure, and the value of a pitot
    frame, its rounding, is at least 101325. *)
Theorem pitot_never_below_static :
  (forall v : Q,
      0 <= compute_dynamic_pressure v /\
      compute_dynamic_pressure (- v) == compute_dynamic_pressure v)%Q
  /\
  (forall g : Globals Q,
      (inject_Z STATIC_PRESSURE <= pitot_pressure_of g)%Q /\
      exists p, num_round (pitot_pressure_of g) = inr p /\ (STATIC_PRESSURE <= p)%Z)
  /\
  (forall v : float, PrimFloat.ltb (compute_dynamic_pressure v) 0 = false).
Proof.
  split; [|split].
  - intros v. split; [apply ExactMore.dynamic_pressure_nonneg|].
    rewrite !ExactFacts.compute_dynamic_pressure_exact. ring.
  - intros g. split; [|apply ExactMore.pitot_rounds_above_static].
    rewrite ExactMore.pitot_pressure_exact.
    pose proof (ExactMore.dynamic_pressure_nonneg (airspeed_ms g)).
    change (inject_Z STATIC_PRESSURE) with 101325%Q. lra.
  - intros v. apply Binary64More.signed_not_below_zero,
      Binary64More.dynamic_pressure_signed.
Qed.

(** ** X4 *)



(** ** X5 *)



(** ** X6 *)

(** X6: in binary64 a NaN as throttle position (JSON [NaN]) does not
    reach the airspeed: [min] and [max] pass it over, so the thrust is
    the idle thrust and the step is the step of throttle position 0.
    The status line however raises [ValueError] on it, which ends the
    loop at the next tick that is a multiple of 20; until then the
    loop goes on. *)
Theorem nan_angle_idles_then_stops :
  forall (l : Loop float) (x : float),
    PrimFloat.eqb x x = false ->
    throttle_angle (globals l) = VFloat x ->
    ws_connected (globals l) = true ->
    compute_thrust x = 50%float /\
    airspeed_ms (globals_of (physics_step (globals l))) =
      airspeed_ms (globals_of (physics_step (set_throttle_angle (VInt 0) (globals l)))) /\
    status_line (globals l) = Some ValueError /\
    (((tick l + 1) mod 20 =? 0)%Z = true ->
     exists l', loop_body l = Crashes ValueError l' /\ tick l' = (tick l + 1)%Z) /\
    (((tick l + 1) mod 20 =? 0)%Z = false -> continues (loop_body l) = true).
Proof.
  intros l x Hx Hth Hc.
  pose proof (Binary64More.is_nan Hx) as Hnan.
  assert (Hthrust : compute_thrust x = compute_thrust (@int float _ 0)).
  { unfold compute_thrust, pymax, pymin. Binary64Facts.float_ops.
    destruct Binary64Facts.literals as (-> & -> & _).
    destruct (@Binary64More.nan_compares_false x 180 Hnan) as [-> _].
    destruct (@Binary64More.nan_compares_false x 0 Hnan) as [-> _].
    reflexivity. }
  assert (Hstatus : forall g, throttle_angle g = VFloat x -> status_line g = Some ValueError).
  { intros g Hg. unfold status_line. rewrite Hg.
    cbn [num_round num_div num_mul Binary64.number].
    rewrite Binary64More.nan_round; [reflexivity|].
    apply Binary64More.nan_mul, Binary64More.nan_div. exact Hnan. }
  assert (Ha : as_number (throttle_angle (globals l)) = Some x) by (rewrite Hth; reflexivity).
  split; [rewrite Hthrust; reflexivity|].
  split.
  { rewrite (physics_step_number (globals l) Ha).
    rewrite (@physics_step_number float _ (set_throttle_angle (VInt 0) (globals l))
               (int 0) eq_refl).
    cbn [globals_of airspeed_ms set_airspeed_ms set_throttle_angle].
    unfold euler. rewrite Hthrust. reflexivity. }
  split; [apply Hstatus; exact Hth|].
  destruct (loop_body_reaches_status l Hc Ha) as [s Hs].
  assert (Hth' : throttle_angle (globals_of (physics_step (globals l))) = VFloat x)
    by (rewrite physics_step_keeps_throttle; exact Hth).
  rewrite Hs. unfold after_status. cbn [tick globals].
  rewrite (Hstatus _ Hth').
  split; intros Ht; rewrite Ht.
  - eexists. split; reflexivity.
  - reflexivity.
Qed.

Lemma nan_angle_idles_then_stops_witness :
  let l : Loop float :=
    {| globals := Samples.flying 40%float (VFloat nan);
       ws := Samples.fresh_socket []; tick := 19 |} in
  (PrimFloat.eqb nan nan = false /\ throttle_angle (globals l) = VFloat nan /\
   ws_connected (globals l) = true /\ ((tick l + 1) mod 20 =? 0)%Z = true) /\
  exists l', loop_body l = Crashes ValueError l' /\ tick l' = 20%Z.
Proof.
  intros l. split; [repeat split|].
  destruct (@nan_angle_idles_then_stops l nan eq_refl eq_refl eq_refl)
    as (_ & _ & _ & H & _).
  apply H. reflexivity.
Defined.

(** ** X7 *)

(** X7: handling a frame a second time changes nothing: the handler's
    outcome on the globals it has just left is the outcome it had.  A
    frame delivered twice is as good as delivered once. *)
Theorem duplicate_frame_is_harmless :
  forall (T : Type) (json_loads : string -> exn + value T)
         (g : Globals T) (message : string),
    on_message json_loads (globals_of (on_message json_loads g message)) message
    = on_message json_loads g message.
Proof.
  intros T json_loads g message. unfold on_message.
  destruct (json_loads message) as [[]|[ | | | | | |msg]]; try reflexivity.
  destruct (eq_str (dict_get msg "type" VNone) "ready").
  { destruct (list_parts _); reflexivity. }
  destruct (eq_str (dict_get msg "type" VNone) "state").
  { destruct (dict_get msg "parts" (VDict [])) as [ | | | | | |parts]; try reflexivity.
    pose proof (scan_parts_again parts g) as Hagain.
    destruct (scan_parts parts g) as [g'|e g'] eqn:Es; cbn [globals_of] in *.
    - rewrite scan_parts_set_serial, Hagain. destruct g'; reflexivity.
    - rewrite Hagain. reflexivity. }
  destruct (eq_str (dict_get msg "type" VNone) "serial").
  { destruct (dict_get msg "data" _); reflexivity. }
  destruct (eq_str (dict_get msg "type" VNone) "error"); reflexivity.
Qed.

(** ** X8 *)

(** X8: no callback writes the airspeed or the running flag.  Whatever
    the frame and whatever [json.loads] makes of it, the message handler
    leaves the airspeed, the running flag and the connected flag as they
    were, whether it returns or raises; [on_open] and [on_close] write
    the connected flag and nothing else; [on_error] writes nothing. *)
Theorem callbacks_never_write_the_airspeed :
  forall (T : Type) (json_loads : string -> exn + value T)
         (g : Globals T) (message : string),
    let g' := globals_of (on_message json_loads g message) in
    (airspeed_ms g' = airspeed_ms g /\
     running g' = running g /\
     ws_connected g' = ws_connected g) /\
    on_open g = set_ws_connected true g /\
    on_close g = set_ws_connected false g /\
    (forall b, airspeed_ms (set_ws_connected b g) = airspeed_ms g /\
               running (set_ws_connected b g) = running g /\
               throttle_angle (set_ws_connected b g) = throttle_angle g /\
               last_serial_lines (set_ws_connected b g) = last_serial_lines g) /\
    on_error g = g.
Proof.
  intros T json_loads g message g'.
  split; [apply on_message_keeps|].
  split; [reflexivity|]. split; [reflexivity|]. split; [|reflexivity].
  intros b. repeat split.
Qed.

(** ** X9 *)

(** X9: only a [state] object can change the globals.  A frame that
    does not decode, decodes to something that is not an object, or is
    an object of another type ([ready], [serial], [error], unknown or
    none) leaves all the globals as they were, also when the handler
    raises on it. *)
Theorem only_state_frames_change_globals :
  forall (T : Type) (json_loads : string -> exn + value T)
         (g : Globals T) (message : string),
    (forall msg, json_loads message = inr (VDict msg) ->
                 eq_str (dict_get msg "type" VNone) "state" = false) ->
    globals_of (on_message json_loads g message) = g.
Proof.
  intros T json_loads g message H. unfold on_message.
  destruct (json_loads message) as [[]|[ | | | | | |msg]]; try reflexivity.
  rewrite (H msg eq_refl).
  destruct (eq_str (dict_get msg "type" VNone) "ready").
  { destruct (list_parts _); reflexivity. }
  destruct (eq_str (dict_get msg "type" VNone) "serial").
  { destruct (dict_get msg "data" _); reflexivity. }
  destruct (eq_str (dict_get msg "type" VNone) "error"); reflexivity.
Qed.

Lemma only_state_frames_change_globals_witness :
  let g : Globals float := Samples.flying 40%float (VInt 90) in
  on_message MoreSamples.more_loads g MoreSamples.ready_text = Raised ValueError g /\
  on_message MoreSamples.more_loads g "[1, 2]" = Raised AttributeError g /\
  globals_of (on_message MoreSamples.more_loads g MoreSamples.ready_text) = g /\
  globals_of (on_message MoreSamples.more_loads g "[1, 2]") = g.
Proof.
  intros g. split; [reflexivity|]. split; [reflexivity|]. split.
  - apply (@only_state_frames_change_globals float MoreSamples.more_loads g
             MoreSamples.ready_text).
    intros msg H. vm_compute in H. injection H as <-. reflexivity.
  - apply (@only_state_frames_change_globals float MoreSamples.more_loads g "[1, 2]").
    intros msg H. vm_compute in H. discriminate H.
Defined.

(** ** X10 *)

(** X10: a [state] object whose parts are objects none of which is a
    servo leaves the throttle position alone: the handler returns, and
    all it changes is the list of serial lines, which becomes the
    frame's ["serial"], or the empty list when the frame has none.
    The same holds when the frame has no ["parts"] at all. *)
Theorem snapshot_without_servo :
  forall (T : Type) (json_loads : string -> exn + value T) (g : Globals T)
         (message : string) (msg parts : list (string * value T)),
    json_loads message = inr (VDict msg) ->
    dict_get msg "type" VNone = VStr "state" ->
    (lookup "parts" msg = Some (VDict parts) \/ lookup "parts" msg = None /\ parts = []) ->
    forallb (fun p => is_dict (snd p)) parts = true ->
    forallb (fun p => negb (is_servo (snd p))) parts = true ->
    on_message json_loads g message =
    Returned (set_last_serial_lines (dict_get msg "serial" (VList [])) g) /\
    (lookup "serial" msg = None ->
     on_message json_loads g message = Returned (set_last_serial_lines (VList []) g)).
Proof.
  intros T json_loads g message msg parts Hl Ht Hp Hd Hs.
  assert (Hparts : dict_get msg "parts" (VDict []) = VDict parts).
  { unfold dict_get. destruct Hp as [->|[-> ->]]; reflexivity. }
  assert (H : on_message json_loads g message =
              Returned (set_last_serial_lines (dict_get msg "serial" (VList [])) g)).
  { rewrite (@on_message_state T json_loads g _ _ _ Hl Ht Hparts).
    destruct (@scan_parts_app T parts [] g Hd) as (g' & Hg' & _).
    rewrite Hg'. f_equal.
    pose proof (scan_parts_no_servo parts g Hs) as Hth.
    destruct (scan_parts_throttle_only parts g) as (H1 & H2 & H3 & H4).
    rewrite Hg' in *. cbn [globals_of] in *.
    destruct g, g'. cbn in *. subst. reflexivity. }
  split; [exact H|].
  intros Hn. rewrite H. unfold dict_get. rewrite Hn. reflexivity.
Qed.

Lemma snapshot_without_servo_witness :
  let g : Globals float := Samples.flying 40%float (VInt 90) in
  @MoreSamples.more_loads float MoreSamples.snapshot_no_servo_text
  = inr MoreSamples.snapshot_no_servo /\
  on_message MoreSamples.more_loads g MoreSamples.snapshot_no_servo_text
  = Returned (set_last_serial_lines (VList [VStr "AT:1"]) g).
Proof.
  intros g. split; [reflexivity|].
  apply (@snapshot_without_servo float MoreSamples.more_loads g
           MoreSamples.snapshot_no_servo_text
           [("type", VStr "state");
            ("parts", VDict [("bmp1", VDict [("type", VStr "wokwi-bmp180")])]);
            ("serial", VList [VStr "AT:1"])]
           [("bmp1", VDict [("type", VStr "wokwi-bmp180")])]);
    try reflexivity.
  left. reflexivity.
Defined.

(** ** X11 *)

(** X11: a [state] object with a part that is not an object is handled
    only halfway.  The parts before it are scanned, so a servo among
    them still sets the throttle position; then the handler raises
    [AttributeError], the parts after it are not looked at and the list
    of serial lines is not updated. *)
Theorem snapshot_with_broken_part :
  forall (T : Type) (json_loads : string -> exn + value T) (g : Globals T)
         (message : string) (msg before after : list (string * value T))
         (pid : string) (info : value T),
    json_loads message = inr (VDict msg) ->
    dict_get msg "type" VNone = VStr "state" ->
    dict_get msg "parts" (VDict []) = VDict (before ++ (pid, info) :: after) ->
    forallb (fun p => is_dict (snd p)) before = true ->
    is_dict info = false ->
    exists g',
      scan_parts before g = Returned g' /\
      on_message json_loads g message = Raised AttributeError g' /\
      last_serial_lines g' = last_serial_lines g.
Proof.
  intros T json_loads g message msg before after pid info Hl Ht Hp Hb Hi.
  destruct (@scan_parts_app T before ((pid, info) :: after) g Hb) as (g' & Hg' & Happ).
  exists g'. split; [exact Hg'|]. split.
  - rewrite (@on_message_state T json_loads g _ _ _ Hl Ht Hp), Happ.
    cbn [scan_parts]. destruct info; try reflexivity. discriminate Hi.
  - destruct (scan_parts_throttle_only before g) as (_ & _ & _ & H4).
    rewrite Hg' in H4. exact H4.
Qed.

Lemma snapshot_with_broken_part_witness :
  let g : Globals float := Samples.flying 40%float (VInt 90) in
  @MoreSamples.more_loads float MoreSamples.snapshot_broken_text
  = inr MoreSamples.snapshot_broken /\
  exists g',
    on_message MoreSamples.more_loads g MoreSamples.snapshot_broken_text
    = Raised AttributeError g' /\
    throttle_angle g' = VInt 45 /\
    last_serial_lines g' = VList [].
Proof.
  intros g. split; [reflexivity|].
  destruct (@snapshot_with_broken_part float MoreSamples.more_loads g
              MoreSamples.snapshot_broken_text
              [("type", VStr "state");
               ("parts", VDict [("servo1", VDict [("type", VStr "wokwi-servo");
                                                  ("angle", VInt 45)]);
                                ("led1", VInt 3)]);
               ("serial", VList [VStr "AT:1"])]
              [("servo1", VDict [("type", VStr "wokwi-servo"); ("angle", VInt 45)])]
              [] "led1" (VInt 3) eq_refl eq_refl eq_refl eq_refl eq_refl)
    as (g' & Hs & Hm & Hser).
  exists g'. split; [exact Hm|].
  cbn in Hs. injection Hs as <-. split; reflexivity.
Defined.

(** ** X12 *)

(** X12: an angle that is not a number stops the simulation.  When the
    last servo part of a snapshot carries an angle that is a string, a
    list, an object or null, the handler stores it; the next connected
    iteration then raises [TypeError] in the physics step, before the
    airspeed changes, before anything is sent and before the tick count
    advances, and the exception leaves the loop. *)
Theorem non_numeric_angle_stops_the_loop :
  forall (T : Type) (num : Number T) (json_loads : string -> exn + value T)
         (l : Loop T) (message : string)
         (msg before after attrs : list (string * value T))
         (pid : string) (angle : value T) (n : nat),
    json_loads message = inr (VDict msg) ->
    dict_get msg "type" VNone = VStr "state" ->
    dict_get msg "parts" (VDict []) = VDict (before ++ (pid, VDict attrs) :: after) ->
    forallb (fun p => is_dict (snd p)) before = true ->
    is_servo (VDict attrs) = true ->
    lookup "angle" attrs = Some angle ->
    forallb (fun p => negb (is_servo (snd p))) after = true ->
    as_number angle = None ->
    ws_connected (globals l) = true ->
    running (globals l) = true ->
    let l' := with_globals (globals_of (on_message json_loads (globals l) message)) l in
    throttle_angle (globals l') = angle /\
    loop_body l' = Crashes TypeError l' /\
    sim_loop (S n) l' = Crashes TypeError l'.
Proof.
  intros T num json_loads l message msg before after attrs pid angle n
         Hl Ht Hp Hb Hs Ha Hafter Hnum Hc Hr l'.
  assert (Hth : throttle_angle (globals l') = angle).
  { unfold l', with_globals. cbn [globals].
    destruct (@on_message_state_globals T json_loads (globals l) _ _ _ Hl Ht Hp) as (-> & _).
    rewrite (scan_parts_last_servo before after pid attrs (globals l) Hb Hs Hafter).
    unfold dict_get. rewrite Ha. reflexivity. }
  destruct (on_message_keeps json_loads (globals l) message) as (_ & Hr' & Hc').
  assert (Hbody : loop_body l' = Crashes TypeError l').
  { apply loop_body_type_error.
    - unfold l', with_globals. cbn [globals]. rewrite Hc'. exact Hc.
    - rewrite Hth. exact Hnum. }
  split; [exact Hth|]. split; [exact Hbody|].
  cbn [sim_loop]. rewrite Hbody.
  unfold l', with_globals. cbn [globals]. rewrite Hr', Hr. reflexivity.
Qed.

Lemma non_numeric_angle_stops_the_loop_witness :
  let l : Loop float :=
    Samples.first_iteration (Samples.flying 40%float (VInt 90)) [] in
  let l' :=
    with_globals
      (globals_of (on_message MoreSamples.more_loads (globals l)
                     MoreSamples.snapshot_word_text)) l in
  @MoreSamples.more_loads float MoreSamples.snapshot_word_text
  = inr MoreSamples.snapshot_word /\
  throttle_angle (globals l') = VStr "full" /\
  sim_loop 5 l' = Crashes TypeError l' /\
  airspeed_ms (globals l') = 40%float /\ attempted (ws l') = [].
Proof.
  intros l l'. split; [reflexivity|].
  destruct (@non_numeric_angle_stops_the_loop float _ MoreSamples.more_loads l
              MoreSamples.snapshot_word_text
              [("type", VStr "state");
               ("parts", VDict [("servo1", VDict [("type", VStr "wokwi-servo");
                                                  ("angle", VStr "full")])])]
              [] [] [("type", VStr "wokwi-servo"); ("angle", VStr "full")]
              "servo1" (VStr "full") 4%nat
              eq_refl eq_refl eq_refl eq_refl eq_refl eq_refl eq_refl eq_refl
              eq_refl eq_refl) as (Hth & _ & Hloop).
  split; [exact Hth|]. split; [exact Hloop|]. split; reflexivity.
Defined.

(** ** X13 *)

(** X13: of the globals the loop writes the airspeed only.  After any
    number of iterations, and also when the loop has crashed, the
    throttle position, the running flag, the connected flag and the
    serial lines are what they were. *)
Theorem loop_writes_airspeed_only :
  forall (T : Type) (num : Number T) (n : nat) (l : Loop T),
    let g' := globals (loop_of (sim_loop n l)) in
    throttle_angle g' = throttle_angle (globals l) /\
    running g' = running (globals l) /\
    ws_connected g' = ws_connected (globals l) /\
    last_serial_lines g' = last_serial_lines (globals l).
Proof.
  intros T num n l.
  apply (sim_loop_invariant
           (fun g => throttle_angle g = throttle_angle (globals l) /\
                     running g = running (globals l) /\
                     ws_connected g = ws_connected (globals l) /\
                     last_serial_lines g = last_serial_lines (globals l))).
  - intros g (H1 & H2 & H3 & H4). unfold physics_step.
    destruct (as_number (throttle_angle g)); cbn; repeat split; assumption.
  - repeat split.
Qed.

(** ** X14 *)

(** X14: what happens on the socket never reaches the simulation.  Two
    runs of the loop from the same globals and tick count, with any two
    sockets and fault schedules, leave the same globals and the same
    tick count after any number of iterations, and either both go on or
    both crash with the same exception. *)
Theorem socket_faults_never_reach_the_simulation :
  forall (T : Type) (num : Number T) (n : nat) (l : Loop T) (s1 s2 : WebSocketApp T),
    let o1 := sim_loop n (with_socket s1 l) in
    let o2 := sim_loop n (with_socket s2 l) in
    globals (loop_of o1) = globals (loop_of o2) /\
    tick (loop_of o1) = tick (loop_of o2) /\
    continues o1 = continues o2 /\
    (forall e l1, o1 = Crashes e l1 -> exists l2, o2 = Crashes e l2).
Proof.
  intros T num n l s1 s2 o1 o2.
  assert (H : same_outcome o1 o2).
  { apply sim_loop_same. split; reflexivity. }
  destruct o1 as [a|e a], o2 as [b|e' b]; cbn in H; try contradiction.
  - destruct H as [Hg Ht]. repeat split; try assumption. intros e l1 E. discriminate E.
  - destruct H as [-> [Hg Ht]]. repeat split; try assumption.
    intros e l1 E. injection E as <- <-. eexists. reflexivity.
Qed.

(** ** X15 *)



(** ** X16 *)

(** X16: a disconnection freezes the simulation and leaves no trace.
    After [on_close], any number of iterations and then [on_open], the
    loop is exactly where it was when the connection was lost: the
    simulated time has not advanced. *)
Theorem reconnection_resumes_where_it_stopped :
  forall (T : Type) (num : Number T) (n : nat) (l : Loop T),
    ws_connected (globals l) = true ->
    let idle := loop_of (sim_loop n (with_globals (on_close (globals l)) l)) in
    with_globals (on_open (globals idle)) idle = l /\
    loop_body (with_globals (on_open (globals idle)) idle) = loop_body l.
Proof.
  intros T num n l Hc idle.
  assert (H : with_globals (on_open (globals idle)) idle = l).
  { unfold idle. rewrite sim_loop_disconnected by reflexivity.
    cbn [loop_of]. unfold with_globals. cbn [globals ws tick].
    rewrite (reopen (globals l) Hc). destruct l; reflexivity. }
  split; [exact H|]. rewrite H. reflexivity.
Qed.

Lemma reconnection_resumes_where_it_stopped_witness :
  let l : Loop float :=
    Samples.first_iteration (Samples.flying 40%float (VInt 90)) [] in
  let idle := loop_of (sim_loop 100 (with_globals (on_close (globals l)) l)) in
  ws_connected (globals l) = true /\
  with_globals (on_open (globals idle)) idle = l.
Proof.
  intros l idle. split; [reflexivity|].
  apply (@reconnection_resumes_where_it_stopped float _ 100%nat l). reflexivity.
Defined.

(** ** X17 *)

(** X17: the endpoint read from the command line.  Without ["--url"]
    among the arguments it is the default; when the arguments end with
    ["--url"] and a value it is that value, whatever comes before; and a
    ["--url"] that is the last argument has no value and is ignored. *)
Theorem url_from_the_command_line :
  forall (prog : string) (args : list string) (u : string),
    (~ In "--url" args -> parse_url (prog :: args) = "ws://localhost:8765") /\
    parse_url (prog :: args ++ ["--url"; u]) = u /\
    (last args EmptyString <> "--url" ->
     parse_url (prog :: args ++ ["--url"]) = parse_url (prog :: args)).
Proof.
  intros prog args u. split; [|split].
  - intros H. rewrite parse_url_scan. apply url_scan_no_option. exact H.
  - rewrite parse_url_scan. apply url_scan_final_option.
  - intros H. rewrite !parse_url_scan. apply url_scan_dangling_option. exact H.
Qed.

Lemma url_from_the_command_line_witness :
  (~ In "--url" ["--verbose"] /\
   parse_url ["airplane-sim.py"; "--verbose"] = "ws://localhost:8765") /\
  (last ["--url"; "ws://bench:9000"] EmptyString <> "--url" /\
   parse_url ["airplane-sim.py"; "--url"; "ws://bench:9000"; "--url"] = "ws://bench:9000").
Proof.
  split; split.
  - cbn. intros [H|H]; [discriminate H|exact H].
  - destruct (url_from_the_command_line "airplane-sim.py" ["--verbose"] EmptyString)
      as (H & _ & _).
    apply H. cbn. intros [E|E]; [discriminate E|exact E].
  - discriminate.
  - destruct (url_from_the_command_line "airplane-sim.py"
                ["--url"; "ws://bench:9000"] EmptyString) as (_ & _ & H).
    change (parse_url ("airplane-sim.py" :: ["--url"; "ws://bench:9000"] ++ ["--url"])
            = "ws://bench:9000").
    rewrite H by discriminate.
    destruct (url_from_the_command_line "airplane-sim.py" [] "ws://bench:9000")
      as (_ & H2 & _).
    exact H2.
Defined.

(** ** X18 *)

(** X18: the start-up wait.  When every one of the 51 reads of the
    connected flag (50 polls and the test after them) sees it down,
    [main] exits with status 1.  When the flag is first seen up at one
    of the polls, [main] stops polling and goes on to the simulation at
    the parsed endpoint if the test after the wait sees the flag still
    up, and exits with status 1 if that test sees it down again. *)
Theorem startup_waits_for_the_connection :
  forall (argv : list string) (flag_at : nat -> bool),
    ((forall i, (i <= 50)%nat -> flag_at i = false) ->
     main argv flag_at = Exit 1) /\
    (forall k, (k < 50)%nat ->
               (forall i, (i < k)%nat -> flag_at i = false) ->
               flag_at k = true ->
               main argv flag_at =
               if flag_at (S k) then Simulate (parse_url argv) else Exit 1).
Proof.
  intros argv flag_at. split.
  - intros H. unfold main.
    rewrite (@wait_all_down 50 flag_at 0) by (intros i Hi; apply H; lia).
    cbn [Nat.add]. rewrite (H 50%nat) by lia. reflexivity.
  - intros k Hk Hdown Hup. unfold main.
    rewrite (@wait_until_up 50 flag_at 0 k); [|lia| |exact Hup].
    + destruct (flag_at (S k)); reflexivity.
    + intros i Hi. apply Hdown. lia.
Qed.

Lemma startup_waits_for_the_connection_witness :
  let never := fun _ : nat => false in
  let third := fun i : nat => (2 <=? i)%nat in
  ((forall i, (i <= 50)%nat -> never i = false) /\
   main ["airplane-sim.py"] never = Exit 1) /\
  (((2 < 50)%nat /\ (forall i, (i < 2)%nat -> third i = false) /\ third 2%nat = true) /\
   main ["airplane-sim.py"] third = Simulate "ws://localhost:8765").
Proof.
  intros never third.
  assert (Hn : forall i, (i <= 50)%nat -> never i = false) by reflexivity.
  assert (Ht : forall i, (i < 2)%nat -> third i = false).
  { intros i Hi. unfold third. apply Nat.leb_gt. exact Hi. }
  split; [split; [exact Hn|]|split; [split; [lia|split; [exact Ht|reflexivity]]|]].
  - apply (proj1 (startup_waits_for_the_connection ["airplane-sim.py"] never) Hn).
  - apply (proj2 (startup_waits_for_the_connection ["airplane-sim.py"] third) 2%nat);
      [lia|exact Ht|reflexivity].
Defined.

(** ** X19 *)

(** X19: in binary64, with an integer between 0 and 180 as throttle
    position, no iteration of the loop crashes: the physics step
    returns and the status line computes, whatever the airspeed (a NaN
    included), the socket and the tick count.  So the loop runs for as
    long as it is asked to. *)
Theorem integer_angles_never_crash_the_loop :
  forall (angle : Z) (n : nat) (l : Loop float),
    (0 <= angle <= 180)%Z ->
    throttle_angle (globals l) = VInt angle ->
    continues (loop_body l) = true /\ continues (sim_loop n l) = true.
Proof.
  intros angle n l Hrange.
  assert (Hstatus : forall g : Globals float,
             throttle_angle g = VInt angle -> status_line g = None).
  { intros g Hg.
    assert (Hall : forallb (fun k => match @status_line float _
                                             (Samples.initial true (VInt (Z.of_nat k))) with
                                     | None => true
                                     | Some _ => false
                                     end) (seq 0 181) = true)
      by (vm_compute; reflexivity).
    rewrite forallb_forall in Hall.
    assert (Hin : In (Z.to_nat angle) (seq 0 181)) by (apply in_seq; lia).
    specialize (Hall (Z.to_nat angle) Hin).
    rewrite Z2Nat.id in Hall by lia.
    unfold status_line in *. rewrite Hg. cbn [throttle_angle Samples.initial] in Hall.
    destruct (num_int_div angle 180) as [e|q]; [discriminate Hall|].
    destruct (num_round _); [discriminate Hall|reflexivity]. }
  assert (Hbody : forall l0 : Loop float,
             throttle_angle (globals l0) = VInt angle -> continues (loop_body l0) = true).
  { intros l0 Hth. destruct (ws_connected (globals l0)) eqn:Hc.
    - assert (Ha : as_number (throttle_angle (globals l0)) = Some (int angle))
        by (rewrite Hth; reflexivity).
      destruct (loop_body_reaches_status l0 Hc Ha) as [s Hs].
      rewrite Hs, continues_after_status. cbn [globals].
      rewrite Hstatus by (rewrite physics_step_keeps_throttle; exact Hth).
      apply orb_true_r.
    - rewrite (loop_body_disconnected l0 Hc). reflexivity. }
  intros Hth. split; [apply Hbody; exact Hth|].
  revert l Hth. induction n as [|n IH]; intros l Hth; [reflexivity|].
  cbn [sim_loop]. destruct (running (globals l)); [|reflexivity].
  pose proof (Hbody l Hth) as Hc. pose proof (loop_body_globals l) as Hg.
  destruct (loop_body l) as [l'|e l']; [|discriminate Hc].
  apply IH. cbn [loop_of] in Hg. rewrite Hg.
  destruct (ws_connected (globals l)); [|exact Hth].
  rewrite physics_step_keeps_throttle. exact Hth.
Qed.

Lemma integer_angles_never_crash_the_loop_witness :
  let l : Loop float :=
    {| globals := Samples.flying nan (VInt 180);
       ws := Samples.fresh_socket [true; true]; tick := 19 |} in
  ((0 <= 180 <= 180)%Z /\ throttle_angle (globals l) = VInt 180) /\
  continues (sim_loop 1000 l) = true.
Proof.
  intros l. split; [split; [lia|reflexivity]|].
  apply (@integer_angles_never_crash_the_loop 180%Z 1000%nat l); [lia|reflexivity].
Defined.
